(** * azureml-pysdk2-template: data schema resolution and environment reconciliation

    A shallow embedding of [core/_aml.py] (short-reference resolution, type
    inference and mode validation of [DataSchema]) and of
    [core/build_/__aml_env.py] (manifest comparison, version increment and the
    create/update/no-op decision of [Env]).

    Conventions of the embedding:
    - a Python [str] is a [string]; its characters are the code points 0..255,
      so the character classes of [str.isdigit], [str.strip], [int] and the
      [\d] of [re] are written out for that range;
    - a Python [int] is a [Z], a [float] a binary64 [float];
    - a raised exception is the [Raise] branch of [result];
    - a [dict] keyed by strings is a [gmap string _], a [set] a [gset];
    - a [Path] is the string [str] gives for it on a POSIX system;
    - the Azure client, the process environment, the file system, the
      clock and the console are explicit arguments or state. *)

From Stdlib Require Import PrimFloat Ascii String.
From stdpp Require Import base option list strings pretty gmap.

Local Open Scope string_scope.

(** ** Exceptions and results *)

Inductive exn : Type :=
| AssertionError (msg : string)
| ValueError (msg : string)
| ValueError_int (literal : string)   (* the ValueError of int() *)
| TypeError
| AttributeError
| KeyError (key : string)
| IndexError
| EOFError
| FileNotFoundError (path : string)
| ValidationError                     (* pydantic *)
| ResourceNotFoundError               (* azure.core.exceptions *)
| SDKException.                       (* raised inside azure.ai.ml *)

Inductive result (A : Type) : Type :=
| Ok (a : A)
| Raise (e : exn).
Arguments Ok {A} a.
Arguments Raise {A} e.

#[global] Instance result_ret : MRet result := λ A a, Ok a.
#[global] Instance result_fmap : FMap result := λ A B f r,
  match r with
  | Ok a => Ok (f a)
  | Raise e => Raise e
  end.
#[global] Instance result_bind : MBind result := λ A B k r,
  match r with
  | Ok a => k a
  | Raise e => Raise e
  end.

Fixpoint rmap {A B} (f : A → result B) (l : list A) : result (list B) :=
  match l with
  | [] => Ok []
  | a :: l' =>
      match f a with
      | Ok b => match rmap f l' with Ok bs => Ok (b :: bs) | Raise e => Raise e end
      | Raise e => Raise e
      end
  end.

(** ** Python string primitives *)

Module PyStr.

Definition code (c : ascii) : N := N_of_ascii c.

(** [0-9]: the decimal digits below code point 256, the [\d] of [re]. *)
Definition is_decimal (c : ascii) : bool :=
  (48 <=? code c)%N && (code c <=? 57)%N.

(** [str.isdigit] for one character: decimal digits and the superscripts
    two, three and one. *)
Definition is_digit_char (c : ascii) : bool :=
  is_decimal c || (code c =? 178)%N || (code c =? 179)%N || (code c =? 185)%N.

(** [str.isspace] for one character, the set removed by [str.strip()]. *)
Definition is_space (c : ascii) : bool :=
  ((9 <=? code c)%N && (code c <=? 13)%N)
  || ((28 <=? code c)%N && (code c <=? 32)%N)
  || (code c =? 133)%N || (code c =? 160)%N.

Fixpoint all_chars (p : ascii → bool) (s : string) : bool :=
  match s with
  | "" => true
  | String c s' => p c && all_chars p s'
  end.

(** [s.isdigit()]: non-empty and every character a digit. *)
Definition isdigit (s : string) : bool :=
  match s with
  | "" => false
  | _ => all_chars is_digit_char s
  end.

(** [c in s] for a single character [c]. *)
Fixpoint contains (c : ascii) (s : string) : bool :=
  match s with
  | "" => false
  | String d s' => if Ascii.eqb d c then true else contains c s'
  end.

(** [s.startswith(p)]. *)
Fixpoint startswith (p s : string) : bool :=
  match p, s with
  | "", _ => true
  | String a p', String b s' => Ascii.eqb a b && startswith p' s'
  | String _ _, "" => false
  end.

(** [s.index(c)], [None] standing for the ValueError of a missing [c]. *)
Fixpoint index (c : ascii) (s : string) : option nat :=
  match s with
  | "" => None
  | String d s' => if Ascii.eqb d c then Some 0 else S <$> index c s'
  end.

(** [s[:n]] and [s[n:]] for [0 <= n]. *)
Fixpoint take (n : nat) (s : string) : string :=
  match n, s with
  | S n', String c s' => String c (take n' s')
  | _, _ => ""
  end.

Fixpoint drop (n : nat) (s : string) : string :=
  match n, s with
  | S n', String _ s' => drop n' s'
  | _, _ => s
  end.

(** [s[n]] for [0 <= n]; [None] is the IndexError. *)
Fixpoint get (n : nat) (s : string) : option ascii :=
  match n, s with
  | O, String c _ => Some c
  | S n', String _ s' => get n' s'
  | _, "" => None
  end.

(** [s.split(c)] for a one-character separator: never empty. *)
Fixpoint split (c : ascii) (s : string) : list string :=
  match s with
  | "" => [""]
  | String d s' =>
      if Ascii.eqb d c then "" :: split c s'
      else match split c s' with
           | [] => [String d ""]
           | w :: ws => String d w :: ws
           end
  end.

(** [sep.join(l)]. *)
Fixpoint join (sep : string) (l : list string) : string :=
  match l with
  | [] => ""
  | [w] => w
  | w :: ws => w +:+ sep +:+ join sep ws
  end.

Fixpoint lstrip (s : string) : string :=
  match s with
  | String c s' => if is_space c then lstrip s' else s
  | "" => ""
  end.

Fixpoint rstrip (s : string) : string :=
  match s with
  | "" => ""
  | String c s' =>
      match rstrip s' with
      | "" => if is_space c then "" else String c ""
      | r => String c r
      end
  end.

(** [s.strip()]. *)
Definition strip (s : string) : string := rstrip (lstrip s).

(** [repr] of a string without quotes, backslashes or control characters,
    and of a list of such strings. *)
Definition repr_plain (s : string) : string := "'" +:+ s +:+ "'".
Definition repr_list (l : list string) : string :=
  "[" +:+ join ", " (repr_plain <$> l) +:+ "]".

(** The digits of [int(s)] after the sign: decimal digits, single
    underscores only between digits. *)
Fixpoint int_digits (s : string) (acc : N) (after_digit : bool) : option N :=
  match s with
  | "" => if after_digit then Some acc else None
  | String c s' =>
      if is_decimal c then int_digits s' (10 * acc + (code c - 48))%N true
      else if Ascii.eqb c "_" then
        if after_digit then int_digits s' acc false else None
      else None
  end.

(** The white space that [int] skips at both ends: the ASCII white space of
    C ([\t\n\v\f\r] and the blank) and, above 127, the characters of
    [str.isspace]; not the separators 28 to 31, which [str.strip()] removes. *)
Definition is_int_space (c : ascii) : bool :=
  ((9 <=? code c)%N && (code c <=? 13)%N)
  || (code c =? 32)%N || (code c =? 133)%N || (code c =? 160)%N.

Fixpoint lstrip_by (p : ascii → bool) (s : string) : string :=
  match s with
  | String c s' => if p c then lstrip_by p s' else s
  | "" => ""
  end.

Fixpoint rstrip_by (p : ascii → bool) (s : string) : string :=
  match s with
  | "" => ""
  | String c s' =>
      match rstrip_by p s' with
      | "" => if p c then "" else String c ""
      | r => String c r
      end
  end.

Definition int_strip (s : string) : string :=
  rstrip_by is_int_space (lstrip_by is_int_space s).

(** [int(s)] in base 10: surrounding white space, an optional sign. *)
Definition int (s : string) : result Z :=
  let body := int_strip s in
  let parsed :=
    match body with
    | String "-" d => Z.opp <$> (Z.of_N <$> int_digits d 0 false)
    | String "+" d => Z.of_N <$> int_digits d 0 false
    | d => Z.of_N <$> int_digits d 0 false
    end in
  match parsed with
  | Some z => Ok z
  | None => Raise (ValueError_int s)
  end.

(** [str(z)] of an integer. *)
Definition of_int (z : Z) : string := pretty z.

End PyStr.

(** ** Regular expressions: what [re.match] needs *)

Module Re.

Inductive regex : Type :=
| Never
| Eps
| Chr (c : ascii)
| Digit                       (* \d *)
| Seq (r1 r2 : regex)
| Alt (r1 r2 : regex)
| Star (r : regex).

(** [r+] *)
Definition Plus (r : regex) : regex := Seq r (Star r).

Fixpoint nullable (r : regex) : bool :=
  match r with
  | Never | Chr _ | Digit => false
  | Eps | Star _ => true
  | Seq r1 r2 => nullable r1 && nullable r2
  | Alt r1 r2 => nullable r1 || nullable r2
  end.

Fixpoint deriv (c : ascii) (r : regex) : regex :=
  match r with
  | Never | Eps => Never
  | Chr d => if Ascii.eqb c d then Eps else Never
  | Digit => if PyStr.is_decimal c then Eps else Never
  | Seq r1 r2 =>
      if nullable r1 then Alt (Seq (deriv c r1) r2) (deriv c r2)
      else Seq (deriv c r1) r2
  | Alt r1 r2 => Alt (deriv c r1) (deriv c r2)
  | Star r1 => Seq (deriv c r1) (Star r1)
  end.

(** [re.match(r, s)] is not None: some prefix of [s] is in the language
    of [r]. *)
Fixpoint matches (r : regex) (s : string) : bool :=
  nullable r ||
  match s with
  | "" => false
  | String c s' => matches (deriv c r) s'
  end.

End Re.

(** ** [core/build_/__aml_env.py]: versions *)

(** The reading of the clock, [datetime.now().timestamp()]: whole seconds
    since the epoch and the digits [str] prints after the point. *)
Record timestamp : Type := { seconds : N; fraction : string }.

Definition str_timestamp (t : timestamp) : string :=
  pretty (seconds t) +:+ "." +:+ fraction t.

(** [pattern = r"(\d+)\.(\d+)\.(\d+)"] *)
Definition pattern : Re.regex :=
  Re.Seq (Re.Plus Re.Digit)
    (Re.Seq (Re.Chr ".")
       (Re.Seq (Re.Plus Re.Digit)
          (Re.Seq (Re.Chr ".") (Re.Plus Re.Digit)))).

(** [parts[-1] += d] on a list of integers. *)
Fixpoint bump_last (d : Z) (parts : list Z) : list Z :=
  match parts with
  | [] => []
  | [p] => [(p + d)%Z]
  | p :: ps => p :: bump_last d ps
  end.

Definition default_version (now : timestamp) : string :=
  hd "" (PyStr.split "." (str_timestamp now)).

Definition increment_version (now : timestamp) (version_string : string)
    (increment : bool) : result string :=
  if negb (Re.matches pattern version_string || PyStr.isdigit version_string)
  then Ok (default_version now)
  else if PyStr.isdigit version_string then
    v ← PyStr.int version_string;
    Ok (if increment then PyStr.of_int (v + 1) else PyStr.of_int (v - 1))
  else
    parts ← rmap PyStr.int (PyStr.split "." version_string);
    Ok (PyStr.join "." (PyStr.of_int <$>
          bump_last (if increment then 1 else -1) parts)).

(** ** [core/build_/__aml_env.py]: manifests and their comparison *)

(** One entry of [dependencies]: a package specifier or a [PipDependencies]
    group. *)
Inductive dependency : Type :=
| DepStr (spec : string)
| DepPip (pip : list string).

#[global] Instance dependency_eq_dec : EqDecision dependency.
Proof. solve_decision. Defined.

(** [type(dep)] *)
Inductive dep_type : Type := TStr | TPipDependencies.

Definition type_of (d : dependency) : dep_type :=
  match d with
  | DepStr _ => TStr
  | DepPip _ => TPipDependencies
  end.

Record EnvironmentSchema : Type := {
  name : string;
  channels : option (list string);
  dependencies : list dependency;
}.

#[global] Instance EnvironmentSchema_eq_dec : EqDecision EnvironmentSchema.
Proof. solve_decision. Defined.

(** [set(a).symmetric_difference(set(b))] *)
Definition symmetric_difference (a b : list string) : gset string :=
  let sa : gset string := list_to_set a in
  let sb : gset string := list_to_set b in
  (sa ∖ sb) ∪ (sb ∖ sa).

(** The values [_compare_channels] returns. *)
Inductive channels_diff : Type :=
| ChNone                                  (* {} *)
| ChMissingSelf (other : list string)     (* ("missing", other.channels) *)
| ChMissingOther (self : list string)     (* (self.channels, "missing") *)
| ChSymDiff (d : gset string).

(** The values stored in the dictionary of [_compare_dependencies]. *)
Inductive dependency_diff : Type :=
| DLength (n m : nat)
| DItem (self_dep other_dep : string)
| DPip (d : gset string)
| DTypeMismatch (t1 t2 : dep_type).

(** The values stored in the dictionary of [compare]. *)
Inductive schema_diff : Type :=
| DiffName (self_name other_name : string)
| DiffChannels (d : channels_diff)
| DiffDependencies (d : gmap string dependency_diff).

Definition _compare_channels (self other : EnvironmentSchema) : channels_diff :=
  match channels self, channels other with
  | None, None => ChNone
  | None, Some oc => ChMissingSelf oc
  | Some sc, None => ChMissingOther sc
  | Some sc, Some oc => ChSymDiff (symmetric_difference sc oc)
  end.

(** The body of the loop over [enumerate(zip(...))] at index [i]. *)
Definition compare_entry (i : nat) (self_dep other_dep : dependency)
    (diff : gmap string dependency_diff) : gmap string dependency_diff :=
  match self_dep, other_dep with
  | DepStr a, DepStr b =>
      if decide (a ≠ b) then <["item_" +:+ pretty i := DItem a b]> diff else diff
  | DepPip a, DepPip b =>
      if decide (a ≠ b)
      then <["pip_" +:+ pretty i := DPip (symmetric_difference a b)]> diff
      else diff
  | _, _ =>
      <["type_mismatch_" +:+ pretty i :=
          DTypeMismatch (type_of self_dep) (type_of other_dep)]> diff
  end.

Fixpoint compare_entries (i : nat) (l1 l2 : list dependency)
    (diff : gmap string dependency_diff) : gmap string dependency_diff :=
  match l1, l2 with
  | a :: l1', b :: l2' => compare_entries (S i) l1' l2' (compare_entry i a b diff)
  | _, _ => diff
  end.

Definition _compare_dependencies (self other : EnvironmentSchema)
    : gmap string dependency_diff :=
  let diff : gmap string dependency_diff :=
    if decide (length (dependencies self) ≠ length (dependencies other))
    then {["length" := DLength (length (dependencies self))
                               (length (dependencies other))]}
    else ∅ in
  compare_entries 0 (dependencies self) (dependencies other) diff.

Definition compare (self other : EnvironmentSchema) : gmap string schema_diff :=
  let diff : gmap string schema_diff := ∅ in
  let diff :=
    if decide (name self ≠ name other)
    then <["name" := DiffName (name self) (name other)]> diff else diff in
  let diff :=
    if decide (channels self ≠ channels other)
    then <["channels" := DiffChannels (_compare_channels self other)]> diff
    else diff in
  let deps_diff := _compare_dependencies self other in
  if decide (deps_diff ≠ ∅)
  then <["dependencies" := DiffDependencies deps_diff]> diff
  else diff.

Definition is_equal (self other : EnvironmentSchema) : bool :=
  bool_decide (size (compare self other) = 0).

(** ** [core/settings.py] *)

Module settings.
Definition ENV_DEFAULT_IMAGE : string :=
  "mcr.microsoft.com/azureml/openmpi4.1.0-ubuntu20.04:latest".
(** [ENV_DEFAULT_DESCRIPTION.format(env_name=...)] *)
Definition ENV_DEFAULT_DESCRIPTION (env_name : string) : string :=
  "Environment created by DSML SDK v2: " +:+ env_name.
Definition ENV_DEFAULT_TAGS : option (gmap string string) := None.
End settings.

(** ** [pathlib]: what [Path(p)] keeps of a string *)

Module PurePath.

(** The root of a POSIX path: exactly two leading slashes are kept, any other
    number of them is one. *)
Definition root (p : string) : string :=
  if PyStr.startswith "//" p && negb (PyStr.startswith "///" p) then "//"
  else if PyStr.startswith "/" p then "/"
  else "".

(** The components after the root: empty components and single dots are
    dropped, double dots stay. *)
Definition parts (p : string) : list string :=
  filter (λ part, part ≠ "" ∧ part ≠ ".") (PyStr.split "/" p).

(** [Path(p).as_posix()], which on a POSIX system is also [str(Path(p))]. *)
Definition as_posix (p : string) : string :=
  match root p, parts p with
  | "", [] => "."
  | r, ps => r +:+ PyStr.join "/" ps
  end.

End PurePath.

(** ** [core/build_/__aml_env.py]: the reconciler [Env] *)

Section Reconciler.

(** What [yaml.safe_load] returns for a conda file, and what the
    [conda_file] of a registered environment holds. *)
Context {conda : Type}.
(** The build context of an environment, opaque to this code. *)
Context {build_context : Type}.
(** The constructor of [EnvironmentSchema] on the keys of a loaded mapping:
    pydantic's validation. *)
Variable EnvironmentSchema_init : conda → result EnvironmentSchema.

Inductive conda_source : Type :=
| CondaPath (path : string)
| CondaDict (d : conda).

(** [azure.ai.ml.entities.Environment], the fields this code passes or
    reads; [env_name] is its [name].  A field that is not passed to the
    constructor is [None] ([properties]: empty); [conda_file] is the mapping
    the environment holds. *)
Record Environment : Type := {
  env_name : string;
  version : option string;
  description : option string;
  tags : option (gmap string string);
  properties : gmap string string;
  conda_file : option conda_source;
  build : option build_context;
  image : option string;
}.

(** The state the reconciler runs against: the registry behind
    [ml_client.environments.list], the environments handed to
    [create_or_update] so far, the conda files on disk, the successive
    readings of the clock, and the lines waiting on the console. *)
Record world : Type := {
  environments_list : string → result (list Environment);
  pushed : list Environment;
  files : gmap string conda;
  clock : nat → timestamp;
  clock_reads : nat;
  stdin : list string;
}.

Definition envM (A : Type) : Type := world → result A * world.

#[local] Instance envM_ret : MRet envM := λ A a w, (Ok a, w).
#[local] Instance envM_bind : MBind envM := λ A B k m w,
  match m w with
  | (Ok a, w') => k a w'
  | (Raise e, w') => (Raise e, w')
  end.

Definition lift {A} (r : result A) : envM A := λ w, (r, w).

Definition set_pushed (l : list Environment) (w : world) : world :=
  {| environments_list := environments_list w; pushed := l;
     files := files w; clock := clock w; clock_reads := clock_reads w;
     stdin := stdin w |}.

Definition set_clock_reads (n : nat) (w : world) : world :=
  {| environments_list := environments_list w; pushed := pushed w;
     files := files w; clock := clock w; clock_reads := n;
     stdin := stdin w |}.

Definition set_stdin (l : list string) (w : world) : world :=
  {| environments_list := environments_list w; pushed := pushed w;
     files := files w; clock := clock w; clock_reads := clock_reads w;
     stdin := l |}.

(** [ml_client.environments.create_or_update(env)] *)
Definition create_or_update (env : Environment) : envM unit := λ w,
  (Ok (), set_pushed (pushed w ++ [env]) w).

(** [datetime.now().timestamp()] *)
Definition read_clock : envM timestamp := λ w,
  (Ok (clock w (clock_reads w)), set_clock_reads (S (clock_reads w)) w).

(** [input(prompt)] *)
Definition input : envM string := λ w,
  match stdin w with
  | [] => (Raise EOFError, w)
  | line :: rest => (Ok line, set_stdin rest w)
  end.

(** [with open(path) as f: yaml.safe_load(f).copy()] *)
Definition load_conda (path : string) : envM conda := λ w,
  match files w !! path with
  | Some d => (Ok d, w)
  | None => (Raise (FileNotFoundError path), w)
  end.

(** [increment_version(v)] with the clock read at the call. *)
Definition increment_version_now (v : option string) : envM string :=
  now ← read_clock;
  match v with
  | Some version_string => lift (increment_version now version_string true)
  | None => lift (Raise TypeError)
  end.

(** [Environment(conda_file=path, ...)]: the constructor loads the mapping
    from the file at [path] and raises when there is no such file. *)
Definition Environment_conda_file (path : string) : envM conda := λ w,
  match files w !! path with
  | Some d => (Ok d, w)
  | None => (Raise SDKException, w)
  end.

(** The instance attributes of [Env]; [self_env_name] is [self.env_name],
    [conda_file_path] the [str] of the [Path] kept in
    [self.conda_file_path].  The client is the class attribute
    [Env.ml_client], built once when the class is defined: it is the [world]
    the methods run in. *)
Record Env : Type := {
  self_env_name : string;
  conda_file_path : string;
}.

(** [Env.__init__] with its [__validate]. *)
Definition Env_init (env_name : string) (conda_file_path : string) : envM Env :=
  λ w,
  let path := PurePath.as_posix conda_file_path in
  if decide (is_Some (files w !! path))
  then (Ok {| self_env_name := env_name; conda_file_path := path |}, w)
  else (Raise (ValueError ("Conda file not found: " +:+ path)), w).

(** The list comprehension of [get_latest]: the environments whose
    ["azureml.labels"] property is ["latest"]. *)
Fixpoint labelled_latest (env_list : list Environment)
    : result (list Environment) :=
  match env_list with
  | [] => Ok []
  | env :: rest =>
      match properties env !! "azureml.labels" with
      | None => Raise (KeyError "azureml.labels")
      | Some label =>
          found ← labelled_latest rest;
          Ok (if decide (label = "latest") then env :: found else found)
      end
  end.

Definition get_latest (env_name : string) : envM (option Environment) := λ w,
  match environments_list w env_name with
  | Raise ResourceNotFoundError => (Ok None, w)
  | Raise e => (Raise e, w)
  | Ok env_list =>
      match labelled_latest env_list with
      | Raise e => (Raise e, w)
      | Ok [] => (Raise IndexError, w)
      | Ok (env :: _) => (Ok (Some env), w)
      end
  end.

(** [x or default] for an optional string and an optional dictionary. *)
Definition or_str (x : option string) (default : string) : string :=
  match x with
  | Some s => if decide (s = "") then default else s
  | None => default
  end.

Definition or_tags (x default : option (gmap string string))
    : option (gmap string string) :=
  match x with
  | Some t => if decide (t = ∅) then default else Some t
  | None => default
  end.

(** [latest.conda_file.copy()] *)
Definition conda_copy (c : option conda_source) : result conda :=
  match c with
  | Some (CondaDict d) => Ok d
  | _ => Raise AttributeError
  end.

(** The [try] block that fills both schemas. *)
Definition fill_schemas (local_conda remote_conda : conda)
    : result (EnvironmentSchema * EnvironmentSchema) :=
  match EnvironmentSchema_init local_conda with
  | Raise ValidationError =>
      Raise (ValueError "Unable to create EnvironmentSchema from conda file. Looks like it's not a valid conda file.")
  | Raise e => Raise e
  | Ok local_schema =>
      match EnvironmentSchema_init remote_conda with
      | Raise ValidationError =>
          Raise (ValueError "Unable to create EnvironmentSchema from conda file. Looks like it's not a valid conda file.")
      | Raise e => Raise e
      | Ok remote_schema => Ok (local_schema, remote_schema)
      end
  end.

(** The environment pushed when the manifests differ. *)
Definition updated_env (self : Env) (latest : Environment)
    (local_conda : conda) (new_version : string) : Environment :=
  {| env_name := self_env_name self;
     version := Some new_version;
     description := description latest;
     tags := tags latest;
     properties := properties latest;
     conda_file := Some (CondaDict local_conda);
     build := build latest;
     image := image latest |}.

(** The environment built when there is none yet; [create_version] is not
    passed to it. *)
Definition created_env (self : Env)
    (create_image create_description : option string)
    (create_tags : option (gmap string string)) (loaded : conda)
    : Environment :=
  {| env_name := self_env_name self;
     version := None;
     description :=
       Some (or_str create_description
               (settings.ENV_DEFAULT_DESCRIPTION (self_env_name self)));
     tags := or_tags create_tags settings.ENV_DEFAULT_TAGS;
     properties := ∅;
     conda_file := Some (CondaDict loaded);
     build := None;
     image := Some (or_str create_image settings.ENV_DEFAULT_IMAGE) |}.

Definition get_create_or_update (self : Env)
    (create_version create_image create_description : option string)
    (create_tags : option (gmap string string)) (interactive : bool)
    : envM Environment :=
  latest ← get_latest (self_env_name self);
  match latest with
  | None =>
      loaded ←
        Environment_conda_file (PurePath.as_posix (conda_file_path self));
      let new_env := created_env self create_image create_description
                       create_tags loaded in
      _ ← create_or_update new_env;
      mret new_env
  | Some latest =>
      local_conda ← load_conda (conda_file_path self);
      remote_conda ← lift (conda_copy (conda_file latest));
      schemas ← lift (fill_schemas local_conda remote_conda);
      let '(local_schema, remote_schema) := schemas in
      if negb (is_equal remote_schema local_schema) then
        new_version ←
          (if interactive then
             shown ← increment_version_now (version latest);
             new_version ← input;
             if decide (PyStr.strip new_version = "")
             then increment_version_now (version latest)
             else mret new_version
           else increment_version_now (version latest));
        let updated := updated_env self latest local_conda new_version in
        _ ← create_or_update updated;
        mret updated
      else mret latest
  end.

End Reconciler.

(** ** [core/_aml.py] *)

(** The values a data schema carries: [None], a boolean, an integer, a
    float or a string. *)
Inductive pyval : Type :=
| PNone
| PBool (b : bool)
| PInt (z : Z)
| PFloat (f : float)
| PStr (s : string).

(** The float literal [3.14]: the binary64 value nearest to it. *)
Definition float_3_14 : float := 0x1.91eb851eb851fp+1%float.

(** [isinstance(v, T)]; a [bool] is also an [int]. *)
Definition isinstance_bool (v : pyval) : bool :=
  match v with PBool _ => true | _ => false end.
Definition isinstance_str (v : pyval) : bool :=
  match v with PStr _ => true | _ => false end.
Definition isinstance_float (v : pyval) : bool :=
  match v with PFloat _ => true | _ => false end.
Definition isinstance_int (v : pyval) : bool :=
  match v with PBool _ | PInt _ => true | _ => false end.

(** The characters of a value that is a string. *)
Definition as_str (v : pyval) : string :=
  match v with PStr s => s | _ => "" end.

(** [v is None] *)
Definition is_None (v : pyval) : bool :=
  match v with PNone => true | _ => false end.

(** [bool(v)] *)
Definition truthy (v : pyval) : bool :=
  match v with
  | PNone => false
  | PBool b => b
  | PInt z => negb (z =? 0)%Z
  | PFloat f => negb (PrimFloat.eqb f 0%float)
  | PStr s => negb (String.eqb s "")
  end.

(** [a or b] *)
Definition py_or (a b : pyval) : pyval := if truthy a then a else b.

(** The three identifiers read from [azure.ai.ml.MLClient]. *)
Record MLClient : Type := {
  subscription_id : string;
  resource_group_name : string;
  workspace_name : string;
}.

Definition uri_template (subs rg ws ds pth : string) : string :=
  "azureml://subscriptions/" +:+ subs +:+ "/resourcegroups/" +:+ rg
  +:+ "/workspaces/" +:+ ws +:+ "/datastores/" +:+ ds +:+ "/paths/" +:+ pth.

(** [l[i]] *)
Definition item {A} (l : list A) (i : nat) : result A :=
  match l !! i with
  | Some a => Ok a
  | None => Raise IndexError
  end.

(** [os.environ[k]] *)
Definition environ_get (environ : gmap string string) (k : string) : result string :=
  match environ !! k with
  | Some v => Ok v
  | None => Raise (KeyError k)
  end.

Definition get_aml_uri (environ : gmap string string) (short_path : string)
    : result string :=
  ds_name ← PyStr.strip <$> item (PyStr.split ":" short_path) 0;
  path_on_ds ← PyStr.strip <$> item (PyStr.split ":" short_path) 1;
  let path_on_ds :=
    if PyStr.startswith "/" path_on_ds then PyStr.drop 1 path_on_ds
    else path_on_ds in
  subs ← environ_get environ "SUBSCRIPTION_ID";
  rg ← environ_get environ "RESOURCE_GROUP";
  ws ← environ_get environ "WORKSPACE_NAME";
  Ok (uri_template subs rg ws ds_name path_on_ds).

Module DataSchema.

Definition IO_MODES_INPUT : list string :=
  ["ro_mount"; "download"; "direct"; "rw_mount"].
Definition IO_MODES_OUTPUT : list string :=
  ["rw_mount"; "upload"; "direct"].

Definition INPUTS : list string :=
  ["uri_folder"; "uri_file"; "mltable"; "mlflow_model"; "custom_model";
   "integer"; "number"; "string"; "boolean"].

Record t : Type := {
  default_value : pyval;
  data_type : option string;
  description : option string;
  client : MLClient;
}.

(** The arguments [Input] and [Output] are built from.  An [Input] or an
    [Output] is taken as the record of the arguments of its call, [kwargs]
    being the keywords given besides the four named ones; what the two
    constructors of [azure.ai.ml] check themselves is not part of it. *)
Record io_args : Type := {
  path : pyval;
  type : option string;
  mode : string;
  io_description : option string;
  kwargs : list (string * pyval);
}.

Inductive io : Type :=
| Input (a : io_args)
| Output (a : io_args).

Definition args_of_io (x : io) : io_args :=
  match x with Input a | Output a => a end.
Definition type_of_io (x : io) : option string := type (args_of_io x).
Definition path_of_io (x : io) : pyval := path (args_of_io x).

Definition str_option (o : option string) : string :=
  match o with Some s => s | None => "None" end.

Definition newline_tab : string := String "010" (String "009" "").

(** [repr] of the tuple [INPUTS]. *)
Definition repr_tuple (l : list string) : string :=
  "(" +:+ PyStr.join ", " (PyStr.repr_plain <$> l) +:+ ")".

(** [self.data_type in self.INPUTS]; [None] is no member. *)
Definition in_INPUTS (data_type : option string) : bool :=
  match data_type with
  | Some ty => bool_decide (ty ∈ INPUTS)
  | None => false
  end.

Definition __validate (self : t) : result unit :=
  if in_INPUTS (data_type self) then Ok ()
  else Raise (AssertionError
                ("Unsupported data type: " +:+ str_option (data_type self)
                 +:+ ". " +:+ newline_tab +:+ "Must be one of: "
                 +:+ repr_tuple INPUTS)).

(** [DataSchema.__init__]; [get_ml_client] is the outcome of the call
    that builds a client from the local configuration. *)
Definition __init__ (get_ml_client : result MLClient)
    (data_type : option string) (default_value : pyval)
    (description : option string) (ml_client : option MLClient) : result t :=
  client ← match ml_client with
           | Some c => Ok c
           | None => get_ml_client
           end;
  let self := {| default_value := default_value; data_type := data_type;
                 description := description; client := client |} in
  _ ← __validate self;
  Ok self.

Definition __get_ds_uri (self : t) (short_uri : string) : result string :=
  let subscription_id := subscription_id (client self) in
  let resource_group := resource_group_name (client self) in
  let workspace := workspace_name (client self) in
  ind ← match PyStr.index ":" short_uri with
        | Some i => Ok i
        | None => Raise (ValueError "substring not found")
        end;
  short_uri ←
    (if decide (String.length short_uri ≠ ind + 1) then
       c ← match PyStr.get (ind + 1) short_uri with
           | Some c => Ok c
           | None => Raise IndexError
           end;
       Ok (if Ascii.eqb c "/"
           then PyStr.take (ind + 1) short_uri +:+ PyStr.drop (ind + 2) short_uri
           else short_uri)
     else Ok short_uri);
  ds_name ← item (PyStr.split ":" short_uri) 0;
  data_path ← item (PyStr.split ":" short_uri) 1;
  Ok (uri_template subscription_id resource_group workspace ds_name data_path).

Definition uri_prefixes : list string :=
  ["azureml:"; "https://"; "http://"; "wasbs://"; "abfss://"; "adl://"].

Definition has_uri_prefix (value : string) : bool :=
  existsb (λ prefix, PyStr.startswith prefix value) uri_prefixes.

Section FileSystem.

(** [Path(p).is_file() or Path(p).is_dir()] for a string [p]. *)
Variable exists_on_disk : string → bool.

(** The [try] of [is_local_path]: [Path] of anything but a string
    raises, which is caught. *)
Definition is_local_path (path : pyval) : bool :=
  match path with
  | PStr p => exists_on_disk p
  | _ => false
  end.

Definition __value2uri (self : t) (value : pyval) : result pyval :=
  if isinstance_str value && has_uri_prefix (as_str value) then Ok value
  else if isinstance_str value && PyStr.contains ":" (as_str value)
  then PStr <$> __get_ds_uri self (as_str value)
  else if is_local_path value then Ok value
  else Ok PNone.

Definition __guess_dtype (value : pyval) : option string :=
  if isinstance_bool value then Some "boolean"
  else if isinstance_str value && PyStr.startswith "azureml:" (as_str value)
  then
    if PyStr.contains "." (as_str value) then Some "uri_file"
    else Some "uri_folder"
  else if isinstance_str value then Some "string"
  else if isinstance_float value then Some "number"
  else if isinstance_int value then Some "integer"
  else None.

(** [not self.data_type] *)
Definition no_data_type (self : t) : bool :=
  match data_type self with
  | None | Some "" => true
  | Some _ => false
  end.

(** [__to_aml]: returns the built entity and [self], whose [data_type]
    the call may have filled in. *)
Definition __to_aml (self : t) (as_ : string) (value : pyval)
    (mode : option string) (kwargs : list (string * pyval))
    : result (io * t) :=
  if decide (as_ ∉ ["input"; "output"]) then Raise (AssertionError "")
  else if is_None value && is_None (default_value self)
  then Raise (ValueError "Data has no value")
  else
    let value := py_or value (default_value self) in
    value ← __value2uri self value;
    let self :=
      if no_data_type self
      then {| default_value := default_value self;
              data_type := __guess_dtype value;
              description := description self;
              client := client self |}
      else self in
    let mode :=
      match mode with
      | None | Some "" =>
          if decide (as_ = "input") then hd "" IO_MODES_INPUT
          else hd "" IO_MODES_OUTPUT
      | Some m => m
      end in
    let args := {| path := value; type := data_type self; mode := mode;
                   io_description := description self;
                   kwargs := kwargs |} in
    if decide (as_ = "input") then Ok (Input args, self)
    else Ok (Output args, self).

Definition unsupported_mode (mode : string) (allowed : list string) : string :=
  "Unsupported mode: " +:+ mode +:+ ". " +:+ newline_tab
  +:+ "Must be one of: " +:+ PyStr.repr_list allowed.

(** The default of the keyword [mode]. *)
Definition as_input_mode : string := "ro_mount".
Definition as_output_mode : string := "rw_mount".

Definition as_input (self : t) (value : pyval) (mode : string)
    (kwargs : list (string * pyval)) : result (io * t) :=
  if is_None (default_value self) && is_None value
  then Raise (ValueError "Data has no a default value nor a passed value")
  else if decide (mode ∉ IO_MODES_INPUT)
  then Raise (ValueError (unsupported_mode mode IO_MODES_INPUT))
  else __to_aml self "input" value (Some mode) kwargs.

Definition as_output (self : t) (value : pyval) (mode : string)
    (kwargs : list (string * pyval)) : result (io * t) :=
  if is_None (default_value self) && is_None value
  then Raise (ValueError "Data has no a default value nor a passed value")
  else if decide (mode ∉ IO_MODES_OUTPUT)
  then Raise (ValueError (unsupported_mode mode IO_MODES_OUTPUT))
  else __to_aml self "output" value (Some mode) kwargs.

End FileSystem.

End DataSchema.

(** ** Vocabulary of the statements *)

(** The identifiers [get_aml_uri] reads from the process environment are
    those of the client. *)
Definition ambient_agree (environ : gmap string string) (c : MLClient) : Prop :=
  environ !! "SUBSCRIPTION_ID" = Some (subscription_id c) ∧
  environ !! "RESOURCE_GROUP" = Some (resource_group_name c) ∧
  environ !! "WORKSPACE_NAME" = Some (workspace_name c).

(** A string without its leading slash, if it has one. *)
Definition drop_slash (s : string) : string :=
  if PyStr.startswith "/" s then PyStr.drop 1 s else s.

(** ** Concrete states used as examples *)

Module ReconcilerExample.

Definition manifest_v1 : EnvironmentSchema :=
  {| name := "train-env"; channels := Some ["conda-forge"];
     dependencies := [DepStr "python=3.9"; DepPip ["pandas"]] |}.


(** A registered environment, labelled as the latest of its name. *)
Definition registered : @Environment EnvironmentSchema string :=
  {| env_name := "train-env";
     version := Some "1.0.3";
     description := Some "training image";
     tags := Some {["team" := "ds"]};
     properties := {["azureml.labels" := "latest"]};
     conda_file := Some (CondaDict manifest_v1);
     build := Some "./docker";
     image := None |}.

Definition registry (env_name : string)
    : result (list (@Environment EnvironmentSchema string)) :=
  if String.eqb env_name "train-env" then Ok [registered]
  else Raise ResourceNotFoundError.

Definition world_with (local_manifest : EnvironmentSchema)
    : @world EnvironmentSchema string :=
  {| environments_list := registry;
     pushed := [];
     files := {["conda_dependencies.yaml" := local_manifest]};
     clock := λ _, {| seconds := 1730628000; fraction := "5" |};
     clock_reads := 0;
     stdin := [] |}.

Definition self : Env :=
  {| self_env_name := "train-env";
     conda_file_path := "conda_dependencies.yaml" |}.



End ReconcilerExample.

Module DataSchemaExample.

Definition client : MLClient :=
  {| subscription_id := "0000-1111"; resource_group_name := "rg-ml";
     workspace_name := "ws-ml" |}.

(** The process environment that names the same workspace. *)
Definition environ : gmap string string :=
  {["SUBSCRIPTION_ID" := "0000-1111"; "RESOURCE_GROUP" := "rg-ml";
    "WORKSPACE_NAME" := "ws-ml"]}.

Definition laptops : DataSchema.t :=
  {| DataSchema.default_value :=
       PStr "teststorage:test_datasets/laptop_price.csv";
     DataSchema.data_type := Some "uri_file";
     DataSchema.description := None;
     DataSchema.client := client |}.

(** A schema that has no default value. *)
Definition unfilled : DataSchema.t :=
  {| DataSchema.default_value := PNone;
     DataSchema.data_type := Some "uri_file";
     DataSchema.description := None;
     DataSchema.client := client |}.

(** No local path exists. *)
Definition empty_disk (path : string) : bool := false.

End DataSchemaExample.

(** ** The language of a regular expression *)

(** The strings a regular expression denotes; [Re.matches] is checked
    against it below. *)
Inductive lang : Re.regex → string → Prop :=
| lang_eps : lang Re.Eps ""
| lang_chr c : lang (Re.Chr c) (String c "")
| lang_digit c : PyStr.is_decimal c = true → lang Re.Digit (String c "")
| lang_seq r1 r2 s1 s2 :
    lang r1 s1 → lang r2 s2 → lang (Re.Seq r1 r2) (s1 +:+ s2)
| lang_alt_l r1 r2 s : lang r1 s → lang (Re.Alt r1 r2) s
| lang_alt_r r1 r2 s : lang r2 s → lang (Re.Alt r1 r2) s
| lang_star_nil r : lang (Re.Star r) ""
| lang_star_cons r s1 s2 :
    lang r s1 → lang (Re.Star r) s2 → lang (Re.Star r) (s1 +:+ s2).

(** How often a character occurs in a string. *)
Fixpoint count_char (c : ascii) (s : string) : nat :=
  match s with
  | "" => 0
  | String d s' => (if Ascii.eqb d c then 1 else 0) + count_char c s'
  end.

(** A dotted version whose components are the numbers of [parts]. *)
Definition dotted (parts : list Z) : string :=
  PyStr.join "." (PyStr.of_int <$> parts).

(** The claim's words for a version "in major.minor.patch numeric form":
    three non-empty runs of decimal digits between two dots, and nothing
    else. *)
Definition major_minor_patch (version_string : string) : bool :=
  match PyStr.split "." version_string with
  | [major; minor; patch] =>
      forallb
        (λ part, negb (String.eqb part "")
                 && PyStr.all_chars PyStr.is_decimal part)
        [major; minor; patch]
  | _ => false
  end.

(** The entry the loop of [_compare_dependencies] writes for position [i]:
    [reports i a b k v] when it stores [v] under the key [k]. *)
Definition reports (i : nat) (self_dep other_dep : dependency)
    (k : string) (v : dependency_diff) : Prop :=
  compare_entry i self_dep other_dep ∅ !! k = Some v.

(** * Properties *)

(** ** Strings *)

Section StringFacts.

Lemma all_chars_app p s1 s2 :
  PyStr.all_chars p (s1 +:+ s2) = PyStr.all_chars p s1 && PyStr.all_chars p s2.
Proof.
  induction s1 as [|c s1 IH]; simpl; [done|].
  by rewrite IH, andb_assoc.
Qed.

Lemma contains_all_chars c p s :
  p c = false → PyStr.all_chars p s = true → PyStr.contains c s = false.
Proof.
  intros Hc. induction s as [|d s IH]; simpl; [done|].
  intros [Hd Hs]%andb_true_iff.
  destruct (Ascii.eqb_spec d c) as [->|_]; [congruence|auto].
Qed.

(** Splitting at the first separator. *)
Lemma split_app c a r :
  PyStr.contains c a = false →
  PyStr.split c (a +:+ String c r) = a :: PyStr.split c r.
Proof.
  induction a as [|d a IH]; simpl.
  - intros _. by rewrite Ascii.eqb_refl.
  - destruct (Ascii.eqb d c); [done|]. intros H. by rewrite IH.
Qed.

Lemma split_nonempty c s : PyStr.split c s ≠ [].
Proof.
  destruct s as [|d s]; simpl; [done|].
  destruct (Ascii.eqb d c); [done|]. by destruct (PyStr.split c s).
Qed.

(** A string that holds [c] is cut at its first [c]. *)
Lemma contains_cut c s :
  PyStr.contains c s = true →
  ∃ a r, s = a +:+ String c r ∧ PyStr.contains c a = false.
Proof.
  induction s as [|d s IH]; simpl; [done|].
  destruct (Ascii.eqb_spec d c) as [->|Hdc].
  - intros _. by exists "", s.
  - intros (a & r & -> & Ha)%IH. exists (String d a), r. simpl.
    split; [done|]. by destruct (Ascii.eqb_spec d c).
Qed.

Lemma index_app c a r :
  PyStr.contains c a = false →
  PyStr.index c (a +:+ String c r) = Some (String.length a).
Proof.
  induction a as [|d a IH]; simpl.
  - intros _. by rewrite Ascii.eqb_refl.
  - destruct (Ascii.eqb d c); [done|]. intros H. by rewrite IH.
Qed.

Lemma length_app_cut a c r :
  String.length (a +:+ String c r) = String.length a + 1 + String.length r.
Proof. induction a as [|d a IH]; simpl; [done|]. by rewrite IH. Qed.

Lemma get_after_cut a c r :
  PyStr.get (String.length a + 1) (a +:+ String c r) = PyStr.get 0 r.
Proof.
  rewrite Nat.add_1_r.
  induction a as [|d a IH]; simpl; [by destruct r|done].
Qed.

Lemma take_through_cut a c r :
  PyStr.take (S (String.length a)) (a +:+ String c r) = a +:+ String c "".
Proof.
  induction a as [|e a IH]; [done|].
  change (String e (PyStr.take (S (String.length a)) (a +:+ String c r))
          = String e (a +:+ String c "")).
  by rewrite IH.
Qed.

Lemma drop_past_cut a c d r :
  PyStr.drop (S (S (String.length a))) (a +:+ String c (String d r)) = r.
Proof. induction a as [|e a IH]; [done|exact IH]. Qed.

Lemma take_drop_after_cut a c d r :
  PyStr.take (String.length a + 1) (a +:+ String c (String d r))
  +:+ PyStr.drop (String.length a + 2) (a +:+ String c (String d r))
  = a +:+ String c r.
Proof.
  replace (String.length a + 1) with (S (String.length a)) by lia.
  replace (String.length a + 2) with (S (S (String.length a))) by lia.
  rewrite take_through_cut, drop_past_cut.
  induction a as [|e a IH]; [done|].
  change (String e ((a +:+ String c "") +:+ r) = String e (a +:+ String c r)).
  by rewrite IH.
Qed.

Lemma pretty_N_char_decimal x :
  (x < 10)%N → PyStr.is_decimal (pretty_N_char x) = true.
Proof.
  intros Hx.
  assert (x = 0 ∨ x = 1 ∨ x = 2 ∨ x = 3 ∨ x = 4 ∨ x = 5 ∨ x = 6 ∨ x = 7
          ∨ x = 8 ∨ x = 9)%N as Hcases by lia.
  destruct_or!; subst x; reflexivity.
Qed.

Lemma pretty_N_go_decimal x s :
  PyStr.all_chars PyStr.is_decimal s = true →
  PyStr.all_chars PyStr.is_decimal (pretty_N_go x s) = true.
Proof.
  revert s. induction (N.lt_wf_0 x) as [x _ IH]; intros s Hs.
  destruct (decide (x = 0)%N) as [->|Hx]; [by rewrite pretty_N_go_0|].
  rewrite pretty_N_go_step by lia.
  apply IH; [apply N.div_lt; lia|]. simpl.
  rewrite pretty_N_char_decimal; [done|]. apply N.mod_lt; lia.
Qed.

Lemma pretty_N_decimal (x : N) :
  PyStr.all_chars PyStr.is_decimal (pretty x) = true.
Proof.
  unfold pretty, pretty_N. case_decide; [done|].
  by apply pretty_N_go_decimal.
Qed.

Lemma pretty_N_nonempty (x : N) : pretty x ≠ "".
Proof.
  unfold pretty, pretty_N. case_decide; [done|].
  assert (∀ y s, s ≠ "" → pretty_N_go y s ≠ "") as go.
  { intros y. induction (N.lt_wf_0 y) as [y _ IH]; intros s Hs.
    destruct (decide (y = 0)%N) as [->|Hy]; [by rewrite pretty_N_go_0|].
    rewrite pretty_N_go_step by lia. apply IH; [apply N.div_lt; lia|done]. }
  rewrite pretty_N_go_step by lia. by apply go.
Qed.

End StringFacts.

(** ** Versions *)

(** The fallback version is the whole seconds of the clock reading. *)
Lemma default_version_seconds now : default_version now = pretty (seconds now).
Proof.
  unfold default_version, str_timestamp.
  change ("." +:+ fraction now) with (String "." (fraction now)).
  rewrite split_app; [done|].
  apply (contains_all_chars _ PyStr.is_decimal); [done|apply pretty_N_decimal].
Qed.

(** ** Manifests *)

Section CompareFacts.

Lemma compare_entry_same i d diff : compare_entry i d d diff = diff.
Proof. destruct d; simpl; by case_decide. Qed.

Lemma compare_entries_same i l diff : compare_entries i l l diff = diff.
Proof.
  revert i diff. induction l as [|d l IH]; intros i diff; simpl; [done|].
  by rewrite compare_entry_same, IH.
Qed.

Lemma compare_same s : compare s s = ∅.
Proof.
  unfold compare, _compare_dependencies.
  destruct (decide (name s ≠ name s)); [done|].
  destruct (decide (channels s ≠ channels s)); [done|].
  destruct (decide (length (dependencies s) ≠ length (dependencies s)));
    [done|].
  rewrite compare_entries_same. by case_decide.
Qed.

Lemma is_equal_same s : is_equal s s = true.
Proof. unfold is_equal. by rewrite compare_same. Qed.

Lemma compare_entries_one_change l i j x y diff :
  l !! i = Some (DepStr x) → x ≠ y →
  compare_entries j l (<[i := DepStr y]> l) diff
  = <["item_" +:+ pretty (j + i) := DItem x y]> diff.
Proof.
  revert i j diff.
  induction l as [|d l IH]; intros [|i] j diff Hi Hxy; simplify_eq/=.
  - rewrite decide_True by done. rewrite compare_entries_same.
    by rewrite Nat.add_0_r.
  - rewrite compare_entry_same, (IH i (S j)) by done.
    by replace (S j + i) with (j + S i) by lia.
Qed.

Lemma compare_entry_empty i a b diff :
  compare_entry i a b diff = ∅ → a = b ∧ diff = ∅.
Proof.
  destruct a, b; simpl; repeat case_decide;
    intros Hins; try (by apply insert_non_empty in Hins); naive_solver.
Qed.

Lemma compare_entries_empty i l1 l2 diff :
  compare_entries i l1 l2 diff = ∅ →
  diff = ∅ ∧ (length l1 = length l2 → l1 = l2).
Proof.
  revert i l2 diff.
  induction l1 as [|a l1 IH]; intros i [|b l2] diff; simpl; try done.
  intros [[-> ->]%compare_entry_empty Hl]%IH.
  split; [done|]. intros [=]. f_equal; auto.
Qed.

Lemma _compare_dependencies_empty a b :
  _compare_dependencies a b = ∅ → dependencies a = dependencies b.
Proof.
  unfold _compare_dependencies. cbv zeta.
  intros [Hinit Hl]%compare_entries_empty. apply Hl.
  destruct (decide (length (dependencies a) ≠ length (dependencies b)))
    as [_|Hlen%dec_stable]; [|done].
  by apply map_non_empty_singleton in Hinit.
Qed.

Lemma compare_empty_eq a b : compare a b = ∅ → a = b.
Proof.
  unfold compare. cbv zeta. intros Hempty.
  destruct (decide (_compare_dependencies a b ≠ ∅)) as [_|Hd%dec_stable];
    [by apply insert_non_empty in Hempty|].
  destruct (decide (channels a ≠ channels b)) as [_|Hc%dec_stable];
    [by apply insert_non_empty in Hempty|].
  destruct (decide (name a ≠ name b)) as [_|Hn%dec_stable];
    [by apply insert_non_empty in Hempty|].
  apply _compare_dependencies_empty in Hd.
  destruct a, b; simpl in *; congruence.
Qed.

(** [is_equal] decides equality of manifests. *)
Lemma is_equal_true_iff a b : is_equal a b = true ↔ a = b.
Proof.
  split; [|intros ->; apply is_equal_same].
  unfold is_equal. intros H%bool_decide_eq_true.
  by apply compare_empty_eq, map_size_empty_iff.
Qed.

Lemma is_equal_false_iff a b : is_equal a b = false ↔ a ≠ b.
Proof.
  rewrite <-is_equal_true_iff. by destruct (is_equal a b).
Qed.

Lemma symmetric_difference_same_set (a b : list string) :
  list_to_set (C:=gset string) a = list_to_set b →
  symmetric_difference a b = ∅.
Proof.
  unfold symmetric_difference. intros Heq. cbv zeta. rewrite Heq.
  apply leibniz_equiv. by rewrite difference_diag, (left_id _ _).
Qed.

End CompareFacts.

(** C2: two manifests with the same name, the same channels and the same
    dependency sequence (nested pip groups included) have an empty diff and
    are equal; when the second differs from the first only in the plain
    dependency at position [i], the diff is the single entry
    "dependencies", holding the single key "item_i" with the two entries. *)
Theorem compare_identical_and_one_change :
  (∀ a b,
     name a = name b → channels a = channels b →
     dependencies a = dependencies b →
     compare a b = ∅ ∧ is_equal a b = true) ∧
  (∀ a b i x y,
     name a = name b → channels a = channels b →
     dependencies a !! i = Some (DepStr x) → x ≠ y →
     dependencies b = <[i := DepStr y]> (dependencies a) →
     compare a b
     = {["dependencies" :=
           DiffDependencies {["item_" +:+ pretty i := DItem x y]}]}
     ∧ is_equal a b = false).
Proof.
  split.
  - intros [n1 c1 d1] [n2 c2 d2]; simpl; intros -> -> ->.
    by rewrite is_equal_same, compare_same.
  - intros a b i x y Hn Hc Hi Hxy Hd.
    assert (_compare_dependencies a b
            = {["item_" +:+ pretty i := DItem x y]}) as Hdeps.
    { unfold _compare_dependencies. cbv zeta.
      rewrite Hd, length_insert, decide_False by naive_solver.
      by rewrite (compare_entries_one_change _ _ _ x y). }
    assert (compare a b
            = {["dependencies" :=
                  DiffDependencies {["item_" +:+ pretty i := DItem x y]}]})
      as Hcmp.
    { unfold compare. cbv zeta. rewrite Hdeps.
      rewrite (decide_False (P:=name a ≠ name b)) by naive_solver.
      rewrite (decide_False (P:=channels a ≠ channels b)) by naive_solver.
      rewrite decide_True; [done|]. apply map_non_empty_singleton. }
    split; [done|]. unfold is_equal. by rewrite Hcmp, map_size_singleton.
Qed.

Lemma compare_identical_and_one_change_witness :
  let a := {| name := "train-env"; channels := Some ["conda-forge"];
              dependencies := [DepStr "python=3.9"; DepStr "pip";
                               DepPip ["pandas"; "scikit-learn"]] |} in
  let b := {| name := "train-env"; channels := Some ["conda-forge"];
              dependencies := [DepStr "python=3.10"; DepStr "pip";
                               DepPip ["pandas"; "scikit-learn"]] |} in
  (compare a a = ∅ ∧ is_equal a a = true) ∧
  (compare a b
   = {["dependencies" :=
         DiffDependencies {["item_0" := DItem "python=3.9" "python=3.10"]}]}
   ∧ is_equal a b = false).
Proof.
  intros a b. split.
  - apply (proj1 compare_identical_and_one_change a a); reflexivity.
  - apply (proj2 compare_identical_and_one_change a b 0
             "python=3.9" "python=3.10"); [reflexivity..|discriminate|reflexivity].
Defined.

(** C10: two manifests that agree on name and dependencies and whose
    channel lists hold the same names in a different order have the diff
    whose only key is "channels", mapped to the empty symmetric difference;
    they are not equal. *)
Theorem compare_channels_order_sensitive a b (ca cb : list string) :
  name a = name b → dependencies a = dependencies b →
  channels a = Some ca → channels b = Some cb →
  ca ≡ₚ cb → ca ≠ cb →
  compare a b = {["channels" := DiffChannels (ChSymDiff ∅)]}
  ∧ compare a b !! "channels" = Some (DiffChannels (ChSymDiff ∅))
  ∧ compare a b ≠ ∅
  ∧ is_equal a b = false.
Proof.
  intros Hn Hd Ha Hb Hperm Hne.
  assert (compare a b = {["channels" := DiffChannels (ChSymDiff ∅)]}) as Hcmp.
  { unfold compare, _compare_dependencies, _compare_channels. cbv zeta.
    rewrite Hd, Ha, Hb, compare_entries_same.
    rewrite (decide_False (P:=name a ≠ name b)) by naive_solver.
    rewrite (decide_True (P:=Some ca ≠ Some cb)) by naive_solver.
    rewrite (decide_False (P:=length _ ≠ length _)) by naive_solver.
    rewrite decide_False by naive_solver.
    rewrite symmetric_difference_same_set; [done|].
    by apply list_to_set_perm_L. }
  rewrite Hcmp. split_and!; [done|by rewrite lookup_singleton_eq| |].
  - apply map_non_empty_singleton.
  - unfold is_equal. by rewrite Hcmp, map_size_singleton.
Qed.

Lemma compare_channels_order_sensitive_witness :
  let a := {| name := "train-env"; channels := Some ["conda-forge"; "defaults"];
              dependencies := [DepStr "python=3.9"] |} in
  let b := {| name := "train-env"; channels := Some ["defaults"; "conda-forge"];
              dependencies := [DepStr "python=3.9"] |} in
  compare a b = {["channels" := DiffChannels (ChSymDiff ∅)]}
  ∧ compare a b !! "channels" = Some (DiffChannels (ChSymDiff ∅))
  ∧ compare a b ≠ ∅
  ∧ is_equal a b = false.
Proof.
  intros a b.
  apply (compare_channels_order_sensitive a b
           ["conda-forge"; "defaults"] ["defaults"; "conda-forge"]);
    [reflexivity..|apply perm_swap|discriminate].
Defined.

(** ** The reconciler *)

Section ReconcilerFacts.

Context {conda build_context : Type}.
Context (EnvironmentSchema_init : conda → result EnvironmentSchema).

Abbreviation Environment := (@Environment conda build_context).
Abbreviation world := (@world conda build_context).

(** [get_latest] only reads. *)
Lemma get_latest_reads env_name (w : world) :
  (get_latest env_name w).2 = w.
Proof.
  unfold get_latest.
  destruct (environments_list w env_name) as [l|[]]; try done.
  by destruct (labelled_latest l) as [[|]|].
Qed.

Lemma get_latest_eq env_name (w : world) r :
  (get_latest env_name w).1 = r → get_latest env_name w = (r, w).
Proof.
  intros <-. rewrite <-(get_latest_reads env_name w) at 3.
  by destruct (get_latest env_name w).
Qed.

(** What [get_latest] returns is registered under the name and carries
    the label. *)
Lemma labelled_latest_elem (l found : list Environment) env :
  labelled_latest l = Ok found → env ∈ found →
  env ∈ l ∧ properties env !! "azureml.labels" = Some "latest".
Proof.
  revert found. induction l as [|e l IH]; intros found; simpl.
  - intros [= <-] []%elem_of_nil.
  - destruct (properties e !! "azureml.labels") as [label|] eqn:Hl; [|done].
    destruct (labelled_latest l) as [found'|]; [|done]. simpl.
    intros [= <-]. case_decide as Hlabel.
    + intros [->|Hin]%elem_of_cons.
      * split; [left|]. by rewrite Hl, Hlabel.
      * destruct (IH found' eq_refl Hin). split; [by right|done].
    + intros Hin. destruct (IH found' eq_refl Hin). split; [by right|done].
Qed.

Lemma get_latest_Some env_name (w : world) latest :
  (get_latest env_name w).1 = Ok (Some latest) →
  ∃ l, environments_list w env_name = Ok l ∧ latest ∈ l
       ∧ properties latest !! "azureml.labels" = Some "latest".
Proof.
  unfold get_latest.
  destruct (environments_list w env_name) as [l|e] eqn:Hlist;
    [|destruct e; done].
  destruct (labelled_latest l) as [[|env found]|] eqn:Hfound; try done.
  simpl. intros [= <-]. exists l. split; [done|].
  eapply labelled_latest_elem; [done|left].
Qed.

(** C3: when the manifest of the local conda file and the manifest of the
    latest registered environment are the same, [get_create_or_update]
    returns that environment and leaves the state as it was: nothing is
    handed to [create_or_update]. *)
Theorem get_create_or_update_unchanged (w : world) self latest
    local_conda remote_conda schema
    create_version create_image create_description create_tags interactive :
  (get_latest (self_env_name self) w).1 = Ok (Some latest) →
  files w !! conda_file_path self = Some local_conda →
  conda_file latest = Some (CondaDict remote_conda) →
  EnvironmentSchema_init local_conda = Ok schema →
  EnvironmentSchema_init remote_conda = Ok schema →
  let run := get_create_or_update EnvironmentSchema_init self create_version
               create_image create_description create_tags interactive w in
  run = (Ok latest, w) ∧ pushed run.2 = pushed w.
Proof.
  intros Hlatest Hfile Hremote Hlocal_schema Hremote_schema run.
  assert (run = (Ok latest, w)) as ->; [|done].
  subst run. unfold get_create_or_update, mbind, envM_bind.
  rewrite (get_latest_eq _ _ _ Hlatest).
  unfold load_conda, lift, fill_schemas.
  rewrite Hfile, Hremote. simpl.
  rewrite Hlocal_schema, Hremote_schema. simpl.
  by rewrite is_equal_same.
Qed.




End ReconcilerFacts.

Lemma get_create_or_update_unchanged_witness :
  let w := ReconcilerExample.world_with ReconcilerExample.manifest_v1 in
  let run := get_create_or_update Ok ReconcilerExample.self
               None None None None false w in
  run = (Ok ReconcilerExample.registered, w) ∧ pushed run.2 = pushed w.
Proof.
  intros w.
  apply (get_create_or_update_unchanged Ok w ReconcilerExample.self
           ReconcilerExample.registered
           ReconcilerExample.manifest_v1 ReconcilerExample.manifest_v1
           ReconcilerExample.manifest_v1); reflexivity.
Defined.



(** ** The two resolvers of short references *)

Section Resolvers.

Import DataSchema.

Variable environ : gmap string string.
Variable self : DataSchema.t.

Lemma drop_slash_String c w :
  drop_slash (String c w) = if Ascii.eqb "/" c then w else String c w.
Proof.
  unfold drop_slash. cbn [PyStr.startswith PyStr.drop].
  by rewrite andb_true_r.
Qed.

(** [__get_ds_uri] on a reference cut at its first colon: the store name
    is taken as it is, the path loses one leading slash. *)
Lemma __get_ds_uri_cut a rest :
  PyStr.contains ":" a = false →
  __get_ds_uri self (a +:+ String ":" rest)
  = Ok (uri_template (subscription_id (client self))
          (resource_group_name (client self)) (workspace_name (client self))
          a (drop_slash (hd "" (PyStr.split ":" rest)))).
Proof.
  intros Ha. unfold __get_ds_uri.
  rewrite index_app by done. simpl.
  rewrite length_app_cut, get_after_cut.
  destruct rest as [|c rest]; simpl.
  - rewrite decide_False by lia. simpl.
    by rewrite split_app by done.
  - rewrite decide_True by lia. simpl.
    destruct (Ascii.eqb_spec c "/") as [->|Hc].
    + rewrite take_drop_after_cut, split_app by done. simpl.
      pose proof (split_nonempty ":" rest).
      by destruct (PyStr.split ":" rest).
    + rewrite split_app by done. simpl.
      destruct (Ascii.eqb_spec c ":") as [->|Hc']; [done|].
      pose proof (split_nonempty ":" rest).
      destruct (PyStr.split ":" rest) as [|w ws]; [done|].
      cbn [hd]. rewrite drop_slash_String.
      by destruct (Ascii.eqb_spec "/" c) as [<-|_].
Qed.

Lemma __get_ds_uri_ok short_uri :
  PyStr.contains ":" short_uri = true →
  ∃ uri, __get_ds_uri self short_uri = Ok uri.
Proof.
  intros (a & rest & -> & Ha)%contains_cut.
  rewrite __get_ds_uri_cut by done. by eexists.
Qed.

(** [get_aml_uri] on the same reference: both segments are stripped
    first. *)
Lemma get_aml_uri_cut a rest :
  PyStr.contains ":" a = false → ambient_agree environ (client self) →
  get_aml_uri environ (a +:+ String ":" rest)
  = Ok (uri_template (subscription_id (client self))
          (resource_group_name (client self)) (workspace_name (client self))
          (PyStr.strip a)
          (drop_slash (PyStr.strip (hd "" (PyStr.split ":" rest))))).
Proof.
  intros Ha (Hs & Hr & Hw). unfold get_aml_uri, environ_get.
  rewrite split_app by done. simpl.
  pose proof (split_nonempty ":" rest).
  destruct (PyStr.split ":" rest) as [|w ws]; [done|]. simpl.
  by rewrite Hs, Hr, Hw.
Qed.

(** C9, as the code has it: on a short reference that holds a colon and
    whose store name and path (the first two segments between colons)
    carry no white space at either end, [get_aml_uri] and [__get_ds_uri]
    return the same URI when the identifiers they read agree; a slash
    right after the colon is dropped by both. *)
Theorem resolvers_agree short_uri :
  PyStr.contains ":" short_uri = true →
  (∀ segment, segment ∈ take 2 (PyStr.split ":" short_uri) →
              PyStr.strip segment = segment) →
  ambient_agree environ (client self) →
  ∃ uri, get_aml_uri environ short_uri = Ok uri
         ∧ __get_ds_uri self short_uri = Ok uri.
Proof.
  intros (a & rest & -> & Ha)%contains_cut Hstrip Hamb.
  rewrite split_app in Hstrip by done.
  pose proof (split_nonempty ":" rest) as Hne.
  rewrite get_aml_uri_cut, __get_ds_uri_cut by done.
  destruct (PyStr.split ":" rest) as [|w ws]; [done|]. simpl in *.
  rewrite (Hstrip a), (Hstrip w) by set_solver.
  by eexists.
Qed.

End Resolvers.

(** ** Data schemas *)

Section DataSchemaFacts.

Import DataSchema.

Variable exists_on_disk : string → bool.

(** C1: a schema cannot be constructed without a data type: [__init__]
    never returns for [data_type = None], and with a client at hand it is
    the assertion of [__validate] that raises, whatever the value.  On a
    schema that has no data type all the same, the type handed to [Input]
    for the values True, 3.14 and 7 is [None], since [__value2uri] has
    turned the value into [None] before [__guess_dtype] sees it; only the
    two "azureml:" strings get the types the claim names.  Applied to
    the values themselves, [__guess_dtype] returns the five types of the
    claim. *)
Theorem init_without_data_type_raises :
  (∀ get_ml_client default_value description ml_client,
     ¬ ∃ self, __init__ get_ml_client None default_value description ml_client
               = Ok self) ∧
  (∀ get_ml_client default_value description ml_client,
     __init__ get_ml_client None default_value description (Some ml_client)
     = Raise (AssertionError
                ("Unsupported data type: None. " +:+ newline_tab
                 +:+ "Must be one of: ('uri_folder', 'uri_file', 'mltable', 'mlflow_model', 'custom_model', 'integer', 'number', 'string', 'boolean')"))) ∧
  (∀ description client kwargs,
     let schema v := {| default_value := v; data_type := None;
                        description := description; client := client |} in
     let built v :=
       fst <$> as_input exists_on_disk (schema v) PNone as_input_mode kwargs in
     type_of_io <$> built (PBool true) = Ok None ∧
     type_of_io <$> built (PFloat float_3_14) = Ok None ∧
     type_of_io <$> built (PInt 7) = Ok None ∧
     type_of_io <$> built (PStr "azureml:foo/bar.csv") = Ok (Some "uri_file") ∧
     type_of_io <$> built (PStr "azureml:foo/bar") = Ok (Some "uri_folder")) ∧
  (__guess_dtype (PBool true) = Some "boolean" ∧
   __guess_dtype (PStr "azureml:foo/bar.csv") = Some "uri_file" ∧
   __guess_dtype (PStr "azureml:foo/bar") = Some "uri_folder" ∧
   __guess_dtype (PFloat float_3_14) = Some "number" ∧
   __guess_dtype (PInt 7) = Some "integer").
Proof.
  split.
  { intros get_ml_client default_value description ml_client [self Hself].
    unfold __init__ in Hself.
    destruct ml_client as [c|]; [|destruct get_ml_client as [c|e]];
      discriminate Hself. }
  split; [reflexivity|]. split; [|split_and!; reflexivity].
  intros description client kwargs schema built. split_and!; reflexivity.
Qed.

(** The message of an unsupported mode ends in the list of the modes
    allowed for the direction. *)
Example unsupported_mode_input :
  unsupported_mode "read" IO_MODES_INPUT
  = "Unsupported mode: read. " +:+ newline_tab
    +:+ "Must be one of: ['ro_mount', 'download', 'direct', 'rw_mount']".
Proof. reflexivity. Qed.

Example unsupported_mode_output :
  unsupported_mode "read" IO_MODES_OUTPUT
  = "Unsupported mode: read. " +:+ newline_tab
    +:+ "Must be one of: ['rw_mount', 'upload', 'direct']".
Proof. reflexivity. Qed.

Lemma __to_aml_mode self as_ value mode kwargs r :
  __to_aml exists_on_disk self as_ value (Some mode) kwargs = Ok r →
  mode ≠ "" → DataSchema.mode (args_of_io r.1) = mode.
Proof.
  unfold __to_aml. intros Hrun Hmode.
  repeat case_match; simplify_eq/=; try done;
    destruct (__value2uri _ _ _); simplify_eq/=;
    by repeat case_match; simplify_eq/=.
Qed.

Lemma __value2uri_ok self value :
  ∃ v, __value2uri exists_on_disk self value = Ok v.
Proof.
  unfold __value2uri. destruct value as [|b|z|f|s];
    cbn [isinstance_str as_str andb is_local_path]; try (by eexists).
  destruct (has_uri_prefix s); [by eexists|].
  destruct (PyStr.contains ":" s) eqn:Hcolon;
    [|case_match; by eexists].
  destruct (__get_ds_uri_ok self s Hcolon) as [uri ->]. by eexists.
Qed.

(** C6, as the code has it: [as_input] returns only for a mode of
    [IO_MODES_INPUT], whose first element is the default of the keyword,
    and [as_output] only for a mode of [IO_MODES_OUTPUT]; any other mode
    raises a ValueError.  Its message names the modes allowed for the
    direction when a value is at hand, passed or default; with neither,
    the "no value" error comes first. *)
Theorem mode_validation self value mode kwargs :
  (head IO_MODES_INPUT = Some as_input_mode ∧
   head IO_MODES_OUTPUT = Some as_output_mode) ∧
  ((∃ r, as_input exists_on_disk self value mode kwargs = Ok r) →
   mode ∈ IO_MODES_INPUT) ∧
  ((∃ r, as_output exists_on_disk self value mode kwargs = Ok r) →
   mode ∈ IO_MODES_OUTPUT) ∧
  (mode ∉ IO_MODES_INPUT →
   as_input exists_on_disk self value mode kwargs
   = Raise (ValueError
              (if is_None (default_value self) && is_None value
               then "Data has no a default value nor a passed value"
               else unsupported_mode mode IO_MODES_INPUT))) ∧
  (mode ∉ IO_MODES_OUTPUT →
   as_output exists_on_disk self value mode kwargs
   = Raise (ValueError
              (if is_None (default_value self) && is_None value
               then "Data has no a default value nor a passed value"
               else unsupported_mode mode IO_MODES_OUTPUT))).
Proof.
  split_and!; try done.
  - intros [r Hr]. unfold as_input in Hr.
    destruct (is_None (default_value self) && is_None value); [done|].
    by destruct (decide (mode ∉ IO_MODES_INPUT)) as [|Hin%dec_stable].
  - intros [r Hr]. unfold as_output in Hr.
    destruct (is_None (default_value self) && is_None value); [done|].
    by destruct (decide (mode ∉ IO_MODES_OUTPUT)) as [|Hin%dec_stable].
  - intros Hmode. unfold as_input.
    destruct (is_None (default_value self) && is_None value); [done|].
    by rewrite decide_True.
  - intros Hmode. unfold as_output.
    destruct (is_None (default_value self) && is_None value); [done|].
    by rewrite decide_True.
Qed.

Lemma startswith_app p s :
  PyStr.startswith p s = true → ∃ r, s = p +:+ r.
Proof.
  revert s. induction p as [|a p IH]; intros s; simpl.
  - intros _. by exists s.
  - destruct s as [|b s]; [done|].
    destruct (Ascii.eqb_spec a b) as [->|_]; [|done]. simpl.
    intros [r ->]%IH. by exists r.
Qed.

(** C7, as the code has it: [__guess_dtype] tests for a boolean first
    (a boolean is an integer too); a string that starts with "azureml:"
    is "uri_file" when it holds a dot and "uri_folder" otherwise; every
    other string is "string", those that start with "https://",
    "http://", "wasbs://", "abfss://" or "adl://" included; a float is
    "number", an integer "integer". *)
Theorem guess_dtype_cases :
  (∀ b, isinstance_int (PBool b) = true
        ∧ __guess_dtype (PBool b) = Some "boolean") ∧
  (∀ s, PyStr.startswith "azureml:" s = true →
        __guess_dtype (PStr s)
        = Some (if PyStr.contains "." s then "uri_file" else "uri_folder")) ∧
  (∀ s, PyStr.startswith "azureml:" s = false →
        __guess_dtype (PStr s) = Some "string") ∧
  (∀ s prefix,
     prefix ∈ ["https://"; "http://"; "wasbs://"; "abfss://"; "adl://"] →
     PyStr.startswith prefix s = true →
     __guess_dtype (PStr s) = Some "string") ∧
  (∀ f, __guess_dtype (PFloat f) = Some "number") ∧
  (∀ z, __guess_dtype (PInt z) = Some "integer").
Proof.
  split_and!; try done.
  - intros s Hs. unfold __guess_dtype.
    cbn [isinstance_bool isinstance_str as_str andb].
    rewrite Hs. by case_match.
  - intros s Hs. unfold __guess_dtype.
    cbn [isinstance_bool isinstance_str as_str andb].
    by rewrite Hs.
  - intros s prefix Hprefix [r ->]%startswith_app.
    rewrite !elem_of_cons, elem_of_nil in Hprefix.
    destruct_or!; try done; subst prefix; reflexivity.
Qed.

(** C8: a passed value that is falsy (False, 0, 0.0 or the empty string)
    does not override the default value: the entity is built from the
    default, as when no value is passed. *)
Theorem falsy_value_does_not_override mode kwargs :
  let self := {| default_value := PStr "azureml:store/default.csv";
                 data_type := Some "uri_file"; description := None;
                 client := DataSchemaExample.client |} in
  let built value mode :=
    (path_of_io ∘ fst) <$> as_input exists_on_disk self value mode kwargs in
  (built (PBool false) mode = built PNone mode ∧
   built (PInt 0) mode = built PNone mode ∧
   built (PFloat 0) mode = built PNone mode ∧
   built (PStr "") mode = built PNone mode) ∧
  (built (PBool false) as_input_mode = Ok (PStr "azureml:store/default.csv") ∧
   built (PInt 0) as_input_mode = Ok (PStr "azureml:store/default.csv") ∧
   built (PFloat 0) as_input_mode = Ok (PStr "azureml:store/default.csv") ∧
   built (PStr "") as_input_mode = Ok (PStr "azureml:store/default.csv")).
Proof.
  intros self built. subst built. split; [|split_and!; reflexivity].
  unfold as_input. simpl.
  destruct (decide (mode ∉ IO_MODES_INPUT)) as [|Hin]; [done|].
  split_and!; reflexivity.
Qed.

(** What does hold of C8: a passed value that is truthy decides the
    outcome alone, whatever the default value is; and with neither a
    passed nor a default value the call raises at once. *)
Lemma truthy_value_overrides self default' value mode kwargs :
  truthy value = true →
  let self' := {| default_value := default'; data_type := data_type self;
                  description := description self; client := client self |} in
  fst <$> as_input exists_on_disk self value mode kwargs
  = fst <$> as_input exists_on_disk self' value mode kwargs
  ∧ fst <$> as_output exists_on_disk self value mode kwargs
    = fst <$> as_output exists_on_disk self' value mode kwargs.
Proof.
  intros Hvalue self'.
  assert (is_None value = false) as Hnn by by destruct value.
  unfold as_input, as_output, __to_aml, py_or, no_data_type. simpl.
  rewrite Hvalue, Hnn, !andb_false_r. simpl.
  assert (∀ v, __value2uri exists_on_disk self' v
               = __value2uri exists_on_disk self v) as ->.
  { intros [|b|z|f|s]; done. }
  split; repeat case_match; simplify_eq/=; try done;
    destruct (__value2uri exists_on_disk self value); simplify_eq/=; done.
Qed.

Lemma no_value_raises self mode kwargs :
  default_value self = PNone →
  as_input exists_on_disk self PNone mode kwargs
  = Raise (ValueError "Data has no a default value nor a passed value")
  ∧ as_output exists_on_disk self PNone mode kwargs
    = Raise (ValueError "Data has no a default value nor a passed value").
Proof. intros Hd. unfold as_input, as_output. by rewrite Hd. Qed.

End DataSchemaFacts.

Lemma not_an_input_mode : "read" ∉ DataSchema.IO_MODES_INPUT.
Proof.
  unfold DataSchema.IO_MODES_INPUT. intros Hin.
  rewrite !elem_of_cons, elem_of_nil in Hin. by destruct_or!.
Qed.

Lemma mode_validation_witness :
  DataSchema.as_input DataSchemaExample.empty_disk DataSchemaExample.laptops
    PNone "read" []
  = Raise (ValueError
             ("Unsupported mode: read. " +:+ DataSchema.newline_tab
              +:+ "Must be one of: ['ro_mount', 'download', 'direct', 'rw_mount']")).
Proof.
  apply (proj1 (proj2 (proj2 (proj2
           (mode_validation DataSchemaExample.empty_disk
              DataSchemaExample.laptops PNone "read" []))))).
  exact not_an_input_mode.
Defined.

(** The claim of C6 as it stands fails: with no value at all, a mode outside
    the allowed list raises the "no value" error, which does not name the
    allowed modes. *)
Lemma bad_mode_without_value_counterexample :
  ¬ (∀ exists_on_disk self value mode kwargs,
       mode ∉ DataSchema.IO_MODES_INPUT →
       DataSchema.as_input exists_on_disk self value mode kwargs
       = Raise (ValueError
                  (DataSchema.unsupported_mode mode DataSchema.IO_MODES_INPUT))).
Proof.
  intros Hclaim.
  specialize (Hclaim DataSchemaExample.empty_disk DataSchemaExample.unfilled
                PNone "read" [] not_an_input_mode).
  discriminate Hclaim.
Qed.

Lemma guess_dtype_cases_witness :
  DataSchema.__guess_dtype (PStr "azureml:foo/bar.csv") = Some "uri_file"
  ∧ DataSchema.__guess_dtype (PStr "teststorage:foo/bar.csv") = Some "string"
  ∧ DataSchema.__guess_dtype (PStr "wasbs://box@account/bar.csv") = Some "string".
Proof.
  split_and!.
  - apply (proj1 (proj2 guess_dtype_cases) "azureml:foo/bar.csv"). reflexivity.
  - apply (proj1 (proj2 (proj2 guess_dtype_cases))). reflexivity.
  - apply (proj1 (proj2 (proj2 (proj2 guess_dtype_cases)))
             "wasbs://box@account/bar.csv" "wasbs://");
      [set_solver|reflexivity].
Defined.

(** The claim of C7 as it stands fails: a string with a qualified prefix
    other than "azureml:" is classified as a plain string. *)
Lemma guess_dtype_prefix_counterexample :
  ¬ (∀ s prefix,
       prefix ∈ DataSchema.uri_prefixes →
       PyStr.startswith prefix s = true →
       DataSchema.__guess_dtype (PStr s)
       = Some (if PyStr.contains "." s then "uri_file" else "uri_folder")).
Proof.
  intros Hclaim.
  specialize (Hclaim "https://account.blob.core.windows.net/box/data.csv"
                "https://").
  assert ("https://" ∈ DataSchema.uri_prefixes) as Hin
    by (unfold DataSchema.uri_prefixes; set_solver).
  specialize (Hclaim Hin eq_refl). discriminate Hclaim.
Qed.

Lemma resolvers_agree_witness :
  ∃ uri,
    get_aml_uri DataSchemaExample.environ
      "teststorage:/test_datasets/laptop_price.csv" = Ok uri
    ∧ DataSchema.__get_ds_uri DataSchemaExample.laptops
        "teststorage:/test_datasets/laptop_price.csv" = Ok uri.
Proof.
  apply (resolvers_agree DataSchemaExample.environ DataSchemaExample.laptops
           "teststorage:/test_datasets/laptop_price.csv").
  - reflexivity.
  - intros segment Hin. cbn in Hin.
    rewrite !elem_of_cons, elem_of_nil in Hin.
    destruct Hin as [->|[->|[]]]; reflexivity.
  - split_and!; reflexivity.
Defined.

(** The claim of C9 as it stands fails: [get_aml_uri] strips the white
    space around the store name and the path, [__get_ds_uri] keeps it. *)
Lemma resolvers_whitespace_counterexample :
  ¬ (∀ environ self short_uri,
       PyStr.contains ":" short_uri = true →
       ambient_agree environ (DataSchema.client self) →
       get_aml_uri environ short_uri = DataSchema.__get_ds_uri self short_uri).
Proof.
  intros Hclaim.
  specialize (Hclaim DataSchemaExample.environ DataSchemaExample.laptops
                "teststorage: test_datasets/laptop_price.csv" eq_refl).
  assert (ambient_agree DataSchemaExample.environ
            (DataSchema.client DataSchemaExample.laptops)) as Hamb
    by (split_and!; reflexivity).
  specialize (Hclaim Hamb). vm_compute in Hclaim. discriminate Hclaim.
Qed.

(** * Further properties *)

(** ** The matcher against the language *)

Section RegexFacts.

Lemma app_empty_r (s : string) : s +:+ "" = s.
Proof.
  induction s as [|c s IH]; [done|].
  change (String c (s +:+ "") = String c s). by rewrite IH.
Qed.

Lemma app_assoc_str (s1 s2 s3 : string) :
  (s1 +:+ s2) +:+ s3 = s1 +:+ (s2 +:+ s3).
Proof.
  induction s1 as [|c s1 IH]; [done|].
  change (String c ((s1 +:+ s2) +:+ s3) = String c (s1 +:+ (s2 +:+ s3))).
  by rewrite IH.
Qed.

Lemma app_eq_empty (s1 s2 : string) : s1 +:+ s2 = "" → s1 = "" ∧ s2 = "".
Proof. destruct s1; [done|]. intros [=]. Qed.

Lemma app_eq_cons (s1 s2 : string) c s :
  s1 +:+ s2 = String c s →
  (s1 = "" ∧ s2 = String c s) ∨ (∃ s1', s1 = String c s1' ∧ s = s1' +:+ s2).
Proof.
  destruct s1 as [|d s1]; [by left|].
  intros [= -> <-]. right. by eexists.
Qed.

Lemma nullable_lang r : Re.nullable r = true ↔ lang r "".
Proof.
  split.
  - induction r as [| | | |r1 IH1 r2 IH2|r1 IH1 r2 IH2|r IH]; simpl;
      try done.
    + intros _. constructor.
    + intros [H1 H2]%andb_true_iff.
      apply (lang_seq r1 r2 "" ""); auto.
    + intros [H1|H2]%orb_true_iff;
        [apply lang_alt_l|apply lang_alt_r]; auto.
    + intros _. constructor.
  - intros Hl. remember "" as s eqn:Hs.
    induction Hl as [| | |r1 r2 s1 s2 _ IH1 _ IH2|r1 r2 s _ IH|r1 r2 s _ IH
                    | |]; simpl; try done.
    + apply app_eq_empty in Hs as [-> ->]. by rewrite IH1, IH2.
    + by rewrite IH.
    + rewrite IH by done. apply orb_true_r.
Qed.

Lemma deriv_lang c r s : lang (Re.deriv c r) s ↔ lang r (String c s).
Proof.
  split.
  - revert s.
    induction r as [| |d| |r1 IH1 r2 IH2|r1 IH1 r2 IH2|r IH]; intros s; simpl.
    + inversion 1.
    + inversion 1.
    + destruct (Ascii.eqb_spec c d) as [->|_]; inversion 1. constructor.
    + destruct (PyStr.is_decimal c) eqn:Hc; inversion 1. by constructor.
    + assert (∀ t, lang (Re.Seq (Re.deriv c r1) r2) t →
                   lang (Re.Seq r1 r2) (String c t)) as Hseq.
      { intros t Ht. inversion Ht as [| | |? ? s1 s2 H1 H2| | | |]; subst.
        apply (lang_seq r1 r2 (String c s1) s2); auto. }
      destruct (Re.nullable r1) eqn:Hn; [|by apply Hseq].
      inversion 1 as [| | | |? ? ? Hl|? ? ? Hr| |]; subst; [by apply Hseq|].
      apply (lang_seq r1 r2 "" (String c s)); [by apply nullable_lang|auto].
    + inversion 1; subst; [apply lang_alt_l|apply lang_alt_r]; auto.
    + inversion 1 as [| | |? ? s1 s2 H1 H2| | | |]; subst.
      apply (lang_star_cons r (String c s1) s2); auto.
  - intros Hl. remember (String c s) as t eqn:Ht. revert s Ht.
    induction Hl as [| d | d Hd |r1 r2 s1 s2 H1 IH1 H2 IH2|r1 r2 t H IH
                    |r1 r2 t H IH| r |r s1 s2 H1 IH1 H2 IH2];
      intros s Ht; simpl.
    + done.
    + injection Ht as -> <-. rewrite Ascii.eqb_refl. constructor.
    + injection Ht as -> <-. rewrite Hd. constructor.
    + apply app_eq_cons in Ht as [[-> ->]|(s1' & -> & ->)].
      * apply nullable_lang in H1 as ->. apply lang_alt_r. by apply IH2.
      * destruct (Re.nullable r1); [apply lang_alt_l|];
          apply lang_seq; auto.
    + apply lang_alt_l. by apply IH.
    + apply lang_alt_r. by apply IH.
    + done.
    + apply app_eq_cons in Ht as [[-> ->]|(s1' & -> & ->)].
      * by apply IH2.
      * apply lang_seq; auto.
Qed.

(** [Re.matches r s] holds exactly when a prefix of [s] is in the language
    of [r]. *)
Lemma matches_lang r s :
  Re.matches r s = true ↔ ∃ p q, s = p +:+ q ∧ lang r p.
Proof.
  revert r. induction s as [|c s IH]; intros r; simpl.
  - rewrite orb_false_r, nullable_lang. split.
    + intros Hl. by exists "", "".
    + intros (p & q & [-> ->]%eq_sym%app_eq_empty & Hl). done.
  - rewrite orb_true_iff, nullable_lang, IH. split.
    + intros [Hl|(p & q & -> & Hl)].
      * by exists "", (String c s).
      * exists (String c p), q. split; [done|]. by apply deriv_lang.
    + intros (p & q & Hs & Hl). symmetry in Hs.
      apply app_eq_cons in Hs as [[-> ->]|(p' & -> & ->)]; [by left|].
      right. exists p', q. split; [done|]. by apply deriv_lang.
Qed.

End RegexFacts.

(** ** Integers and their decimal form *)

Section IntFacts.

Lemma decimal_not_space c : PyStr.is_decimal c = true → PyStr.is_space c = false.
Proof.
  unfold PyStr.is_decimal, PyStr.is_space.
  rewrite andb_true_iff, !N.leb_le, !orb_false_iff, !andb_false_iff,
    !N.leb_gt, !N.eqb_neq. lia.
Qed.

Lemma decimal_is_digit_char c :
  PyStr.is_decimal c = true → PyStr.is_digit_char c = true.
Proof. unfold PyStr.is_digit_char. by intros ->. Qed.

Lemma all_chars_impl (p q : ascii → bool) s :
  (∀ c, p c = true → q c = true) →
  PyStr.all_chars p s = true → PyStr.all_chars q s = true.
Proof.
  intros Hpq. induction s as [|c s IH]; simpl; [done|].
  intros [Hc Hs]%andb_true_iff. by rewrite (Hpq c Hc), IH.
Qed.

Lemma int_space_is_space c :
  PyStr.is_int_space c = true → PyStr.is_space c = true.
Proof.
  unfold PyStr.is_int_space, PyStr.is_space.
  rewrite !orb_true_iff, !andb_true_iff, !N.leb_le, !N.eqb_eq. lia.
Qed.

Lemma not_space_not_int_space c :
  PyStr.is_space c = false → PyStr.is_int_space c = false.
Proof.
  intros Hc. destruct (PyStr.is_int_space c) eqn:Hi; [|done].
  apply int_space_is_space in Hi. congruence.
Qed.

Lemma rstrip_by_none p s :
  PyStr.all_chars (λ c, negb (p c)) s = true → PyStr.rstrip_by p s = s.
Proof.
  induction s as [|c s IH]; simpl; [done|].
  intros [Hc Hs]%andb_true_iff. rewrite IH by done.
  apply negb_true_iff in Hc. rewrite Hc. by destruct s.
Qed.

(** What [str.strip()] leaves alone, [int] leaves alone. *)
Lemma int_strip_no_space s :
  PyStr.all_chars (λ c, negb (PyStr.is_space c)) s = true →
  PyStr.int_strip s = s.
Proof.
  intros Hs.
  assert (PyStr.all_chars (λ c, negb (PyStr.is_int_space c)) s = true) as Hi.
  { revert Hs. apply all_chars_impl. intros c Hc%negb_true_iff.
    by rewrite not_space_not_int_space. }
  unfold PyStr.int_strip.
  assert (PyStr.lstrip_by PyStr.is_int_space s = s) as ->;
    [|by apply rstrip_by_none].
  destruct s as [|c s]; simpl in *; [done|].
  apply andb_true_iff in Hi as [Hc%negb_true_iff _]. by rewrite Hc.
Qed.

Lemma decimal_no_space s :
  PyStr.all_chars PyStr.is_decimal s = true →
  PyStr.all_chars (λ c, negb (PyStr.is_space c)) s = true.
Proof.
  apply all_chars_impl. intros c Hc. by rewrite decimal_not_space.
Qed.

Lemma pretty_N_char_code x :
  (x < 10)%N → (PyStr.code (pretty_N_char x) - 48 = x)%N.
Proof.
  intros Hx.
  assert (x = 0 ∨ x = 1 ∨ x = 2 ∨ x = 3 ∨ x = 4 ∨ x = 5 ∨ x = 6 ∨ x = 7
          ∨ x = 8 ∨ x = 9)%N as Hcases by lia.
  destruct_or!; subst x; reflexivity.
Qed.

(** Reading back the digits [pretty_N_go] has put in front of [s]. *)
Lemma int_digits_pretty_N_go x :
  (0 < x)%N →
  ∃ k, (x < k)%N ∧ ∀ s acc b,
    PyStr.int_digits (pretty_N_go x s) acc b
    = PyStr.int_digits s (acc * k + x)%N true.
Proof.
  induction (N.lt_wf_0 x) as [x _ IH]. intros Hx.
  assert (x `mod` 10 < 10)%N as Hmod by (apply N.mod_lt; lia).
  pose proof (N.div_mod x 10 ltac:(lia)) as Hdiv.
  destruct (decide (x `div` 10 = 0)%N) as [Hz|Hnz].
  - exists 10%N. split; [lia|]. intros s acc b.
    rewrite pretty_N_go_step, Hz, pretty_N_go_0 by done. simpl.
    rewrite pretty_N_char_decimal, pretty_N_char_code by done.
    f_equal. lia.
  - destruct (IH (x `div` 10)%N) as (k & Hk & Hgo);
      [apply N.div_lt; lia|lia|].
    exists (10 * k)%N. split; [lia|]. intros s acc b.
    rewrite pretty_N_go_step, Hgo by done. simpl.
    rewrite pretty_N_char_decimal, pretty_N_char_code by done.
    f_equal. lia.
Qed.

Lemma int_digits_pretty_N (n : N) :
  PyStr.int_digits (pretty n) 0 false = Some n.
Proof.
  unfold pretty, pretty_N. case_decide as Hn; [by subst|].
  destruct (int_digits_pretty_N_go n) as (k & _ & Hgo); [lia|].
  by rewrite Hgo.
Qed.

(** A string that, stripped, starts with a decimal digit carries no
    sign. *)
Lemma int_unsigned s c body :
  PyStr.is_decimal c = true →
  PyStr.int_strip s = String c body →
  PyStr.int s
  = match PyStr.int_digits (String c body) 0 false with
    | Some n => Ok (Z.of_N n)
    | None => Raise (ValueError_int s)
    end.
Proof.
  intros Hc Hstrip. unfold PyStr.int. rewrite Hstrip.
  destruct c as [[] [] [] [] [] [] [] []]; try (by vm_compute in Hc);
    by destruct (PyStr.int_digits _ _ _).
Qed.

Lemma pretty_N_cons (n : N) : ∃ c s, pretty n = String c s.
Proof.
  pose proof (pretty_N_nonempty n). destruct (pretty n); [done|by eauto].
Qed.

(** [int(str(n)) == n] for a natural number. *)
Lemma int_pretty_N (n : N) : PyStr.int (pretty n) = Ok (Z.of_N n).
Proof.
  pose proof (pretty_N_decimal n) as Hd.
  pose proof (int_digits_pretty_N n) as Hi.
  pose proof (int_strip_no_space _ (decimal_no_space _ Hd)) as Hs.
  destruct (pretty_N_cons n) as (c & s & Heq). rewrite Heq in *.
  rewrite (int_unsigned _ c s), Hi; [done| |done].
  simpl in Hd. by apply andb_true_iff in Hd as [? _].
Qed.

Lemma pretty_Z_of_N (n : N) : pretty (Z.of_N n) = pretty n.
Proof. by destruct n. Qed.

(** [int(str(z)) == z] for every integer. *)
Lemma int_pretty_Z (z : Z) : PyStr.int (pretty z) = Ok z.
Proof.
  destruct z as [|p|p].
  - reflexivity.
  - apply (int_pretty_N (Npos p)).
  - change (pretty (Z.neg p)) with ("-" +:+ pretty (Npos p)).
    pose proof (pretty_N_decimal (Npos p)) as Hd.
    unfold PyStr.int. rewrite int_strip_no_space.
    + change ("-" +:+ pretty (N.pos p)) with (String "-" (pretty (N.pos p))).
      cbv iota beta. by rewrite int_digits_pretty_N.
    + change ("-" +:+ pretty (N.pos p)) with (String "-" (pretty (N.pos p))).
      simpl. by apply decimal_no_space.
Qed.

Lemma isdigit_pretty_N (n : N) : PyStr.isdigit (pretty n) = true.
Proof.
  destruct (pretty_N_cons n) as (c & s & Heq).
  pose proof (pretty_N_decimal n) as Hd. rewrite Heq in *.
  unfold PyStr.isdigit.
  by apply (all_chars_impl _ _ _ decimal_is_digit_char).
Qed.

End IntFacts.

(** ** Versions, in general *)

Section VersionFacts.

Lemma count_char_app c s1 s2 :
  count_char c (s1 +:+ s2) = count_char c s1 + count_char c s2.
Proof.
  induction s1 as [|d s1 IH]; [done|].
  change (count_char c (String d (s1 +:+ s2))
          = count_char c (String d s1) + count_char c s2).
  simpl. rewrite IH. lia.
Qed.

Lemma count_char_contains c s :
  PyStr.contains c s = false ↔ count_char c s = 0.
Proof.
  induction s as [|d s IH]; simpl; [done|].
  destruct (Ascii.eqb d c); [done|]. by rewrite IH.
Qed.

Lemma contains_not_all_chars c p s :
  p c = false → PyStr.contains c s = true → PyStr.all_chars p s = false.
Proof.
  intros Hc. induction s as [|d s IH]; simpl; [done|].
  destruct (Ascii.eqb_spec d c) as [->|_].
  - intros _. by rewrite Hc.
  - intros Hs. rewrite IH by done. apply andb_false_r.
Qed.

Lemma isdigit_no_dot s : PyStr.contains "." s = true → PyStr.isdigit s = false.
Proof.
  intros Hs. unfold PyStr.isdigit. destruct s; [done|].
  by apply (contains_not_all_chars ".").
Qed.

Lemma split_no_sep c s : PyStr.contains c s = false → PyStr.split c s = [s].
Proof.
  induction s as [|d s IH]; simpl; [done|].
  destruct (Ascii.eqb d c); [done|]. intros Hs. by rewrite IH.
Qed.

Lemma pretty_N_no_dot (n : N) : PyStr.contains "." (pretty n) = false.
Proof.
  apply (contains_all_chars _ PyStr.is_decimal); [done|apply pretty_N_decimal].
Qed.

(** Splitting a dotted sequence of natural numbers gives the numbers
    back. *)
Lemma split_dotted (parts : list N) :
  parts ≠ [] →
  PyStr.split "." (dotted (Z.of_N <$> parts)) = pretty <$> parts.
Proof.
  unfold dotted. induction parts as [|a [|b parts] IH]; [done| |]; intros _.
  - simpl. unfold PyStr.of_int. rewrite pretty_Z_of_N.
    apply split_no_sep, pretty_N_no_dot.
  - change (PyStr.split "."
              (PyStr.of_int (Z.of_N a) +:+
               String "." (PyStr.join "." (PyStr.of_int <$> (Z.of_N <$> b :: parts))))
            = pretty a :: (pretty <$> b :: parts)).
    unfold PyStr.of_int at 1. rewrite pretty_Z_of_N, split_app
      by apply pretty_N_no_dot.
    by rewrite IH.
Qed.

Lemma rmap_int_pretty (parts : list N) :
  rmap PyStr.int (pretty <$> parts) = Ok (Z.of_N <$> parts).
Proof.
  induction parts as [|a parts IH]; [done|].
  rewrite !fmap_cons. cbn [rmap]. by rewrite int_pretty_N, IH.
Qed.

Lemma lang_star_digits s :
  PyStr.all_chars PyStr.is_decimal s = true → lang (Re.Star Re.Digit) s.
Proof.
  induction s as [|c s IH]; simpl; [constructor|].
  intros [Hc Hs]%andb_true_iff.
  apply (lang_star_cons Re.Digit (String c "") s); [by constructor|auto].
Qed.

Lemma lang_plus_digits (n : N) : lang (Re.Plus Re.Digit) (pretty n).
Proof.
  destruct (pretty_N_cons n) as (c & s & Heq).
  pose proof (pretty_N_decimal n) as Hd. rewrite Heq in *. simpl in Hd.
  apply andb_true_iff in Hd as [Hc Hs].
  apply (lang_seq Re.Digit (Re.Star Re.Digit) (String c "") s);
    [by constructor|by apply lang_star_digits].
Qed.

(** A string in the language of a run of digits is made of digits. *)
Lemma lang_star_digits_inv s :
  lang (Re.Star Re.Digit) s → PyStr.contains "." s = false.
Proof.
  intros Hl. remember (Re.Star Re.Digit) as r eqn:Hr.
  induction Hl as [| | | | | | |r s1 s2 H1 _ H2 IH2]; try done.
  injection Hr as ->. inversion H1; subst.
  change (PyStr.contains "." (String c s2) = false). simpl.
  destruct (Ascii.eqb_spec c ".") as [->|_]; [done|by apply IH2].
Qed.

(** Three dotted natural numbers, followed by anything, match the
    pattern. *)
Lemma matches_three_parts (a b c : N) rest :
  Re.matches pattern
    (pretty a +:+ "." +:+ pretty b +:+ "." +:+ pretty c +:+ rest) = true.
Proof.
  apply matches_lang.
  exists (pretty a +:+ "." +:+ pretty b +:+ "." +:+ pretty c), rest. split.
  - by rewrite !app_assoc_str.
  - unfold pattern.
    apply lang_seq; [apply lang_plus_digits|].
    apply (lang_seq _ _ "."); [constructor|].
    apply lang_seq; [apply lang_plus_digits|].
    apply (lang_seq _ _ "."); [constructor|apply lang_plus_digits].
Qed.

(** Whatever the pattern matches holds two dots. *)
Lemma lang_pattern_two_dots p : lang pattern p → (2 ≤ count_char "." p)%nat.
Proof.
  unfold pattern. intros Hl.
  inversion Hl as [| | |? ? s1 t1 _ Hl1| | | |]; subst.
  inversion Hl1 as [| | |? ? s2 t2 Hd1 Hl2| | | |]; subst.
  inversion Hl2 as [| | |? ? s3 t3 _ Hl3| | | |]; subst.
  inversion Hl3 as [| | |? ? s4 t4 Hd2 _| | | |]; subst.
  inversion Hd1; inversion Hd2; subst.
  rewrite !count_char_app. simpl. lia.
Qed.

(** Joining what [split] gives back restores the string. *)
Lemma join_split c s : PyStr.join (String c "") (PyStr.split c s) = s.
Proof.
  induction s as [|d s IH]; [done|]. cbn [PyStr.split].
  pose proof (split_nonempty c s) as Hne.
  destruct (Ascii.eqb_spec d c) as [->|_].
  - destruct (PyStr.split c s) as [|w ws]; [done|].
    change (String c (PyStr.join (String c "") (w :: ws)) = String c s).
    by rewrite IH.
  - destruct (PyStr.split c s) as [|w ws]; [done|].
    rewrite <-IH. by destruct ws.
Qed.

Lemma lang_star_digits_decimal s :
  lang (Re.Star Re.Digit) s → PyStr.all_chars PyStr.is_decimal s = true.
Proof.
  intros Hl. remember (Re.Star Re.Digit) as r eqn:Hr.
  induction Hl as [| | | | | | |r s1 s2 H1 _ H2 IH2]; try done.
  injection Hr as ->. inversion H1 as [| |d Hd| | | | |]; subst.
  change (PyStr.all_chars PyStr.is_decimal (String d s2) = true). simpl.
  by rewrite Hd, IH2.
Qed.

(** The language of [\d+]: the non-empty runs of decimal digits. *)
Lemma lang_plus_digits_iff s :
  lang (Re.Plus Re.Digit) s
  ↔ s ≠ "" ∧ PyStr.all_chars PyStr.is_decimal s = true.
Proof.
  split.
  - intros Hl. inversion Hl as [| | |? ? s1 s2 H1 H2| | | |]; subst.
    inversion H1 as [| |d Hd| | | | |]; subst.
    apply lang_star_digits_decimal in H2.
    split; [done|]. change (PyStr.all_chars PyStr.is_decimal (String d s2) = true).
    simpl. by rewrite Hd, H2.
  - intros [Hne Hs]. destruct s as [|d s]; [done|]. simpl in Hs.
    apply andb_true_iff in Hs as [Hd Hs].
    apply (lang_seq Re.Digit (Re.Star Re.Digit) (String d "") s);
      [by constructor|by apply lang_star_digits].
Qed.

(** The claim's "major.minor.patch numeric form" is the language of the
    pattern: the whole string, where [re.match] asks for a prefix. *)
Lemma major_minor_patch_lang s :
  major_minor_patch s = true ↔ lang pattern s.
Proof.
  assert (∀ part, negb (String.eqb part "")
                  && PyStr.all_chars PyStr.is_decimal part = true
                  ↔ lang (Re.Plus Re.Digit) part) as Hpart.
  { intros part.
    by rewrite lang_plus_digits_iff, andb_true_iff, negb_true_iff,
      String.eqb_neq. }
  unfold major_minor_patch, pattern. split.
  - intros Hs. rewrite <-(join_split "." s).
    destruct (PyStr.split "." s) as [|a [|b [|c [|? ?]]]]; try done.
    cbn [forallb] in Hs.
    apply andb_true_iff in Hs as [Ha%Hpart Hs].
    apply andb_true_iff in Hs as [Hb%Hpart Hs].
    apply andb_true_iff in Hs as [Hc%Hpart _].
    change (PyStr.join "." [a; b; c])
      with (a +:+ ("." +:+ (b +:+ ("." +:+ c)))).
    apply lang_seq; [done|]. apply (lang_seq _ _ "."); [constructor|].
    apply lang_seq; [done|]. by apply (lang_seq _ _ "."); [constructor|].
  - intros Hl.
    inversion Hl as [| | |? ? a t1 Ha Hl1| | | |]; subst.
    inversion Hl1 as [| | |? ? s2 t2 Hd1 Hl2| | | |]; subst.
    inversion Hl2 as [| | |? ? b t3 Hb Hl3| | | |]; subst.
    inversion Hl3 as [| | |? ? s4 c Hd2 Hc| | | |]; subst.
    inversion Hd1; inversion Hd2; subst.
    assert (∀ part, lang (Re.Plus Re.Digit) part →
                    PyStr.contains "." part = false) as Hdot.
    { intros part [_ Hdec]%lang_plus_digits_iff.
      by apply (contains_all_chars _ PyStr.is_decimal). }
    change (String "." "" +:+ b +:+ String "." "" +:+ c)
      with (String "." (b +:+ String "." c)).
    rewrite split_app by auto. rewrite split_app by auto.
    rewrite split_no_sep by auto.
    cbn [forallb].
    rewrite (proj2 (Hpart a) Ha), (proj2 (Hpart b) Hb), (proj2 (Hpart c) Hc).
    done.
Qed.

(** What the code tests is the form of a prefix. *)
Lemma matches_major_minor_patch s :
  Re.matches pattern s = true
  ↔ ∃ p q, s = p +:+ q ∧ major_minor_patch p = true.
Proof.
  rewrite matches_lang. by setoid_rewrite major_minor_patch_lang.
Qed.

Lemma matches_needs_two_dots s :
  (count_char "." s < 2)%nat → Re.matches pattern s = false.
Proof.
  intros Hs. apply not_true_is_false.
  intros (p & q & -> & Hl%lang_pattern_two_dots)%matches_lang.
  rewrite count_char_app in Hs. lia.
Qed.

Lemma dotted_three (a b c : N) (more : list N) :
  ∃ rest,
    dotted (Z.of_N <$> a :: b :: c :: more)
    = pretty a +:+ "." +:+ pretty b +:+ "." +:+ pretty c +:+ rest.
Proof.
  unfold dotted, PyStr.of_int. destruct more as [|d more].
  - exists "". simpl. by rewrite !pretty_Z_of_N, app_empty_r.
  - eexists. cbn [fmap list_fmap PyStr.join].
    by rewrite !pretty_Z_of_N.
Qed.

Lemma increment_version_integer_eq now (n : N) increment :
  increment_version now (pretty n) increment
  = Ok (pretty (Z.of_N n + (if increment then 1 else -1))%Z).
Proof.
  unfold increment_version.
  rewrite isdigit_pretty_N, orb_true_r, int_pretty_N. by destruct increment.
Qed.

(** X1: a version that is a natural number in decimal form is
    incremented to the next number and decremented to the one before,
    which for "0" is "-1". *)
Theorem increment_version_integer now (n : N) :
  increment_version now (pretty n) true = Ok (pretty (Z.of_N n + 1)%Z)
  ∧ increment_version now (pretty n) false = Ok (pretty (Z.of_N n - 1)%Z)
  ∧ increment_version now "0" false = Ok "-1".
Proof.
  split_and!; [apply (increment_version_integer_eq now n true)
              |apply (increment_version_integer_eq now n false)
              |reflexivity].
Qed.

Lemma increment_version_dotted_eq now (parts : list N) increment :
  (3 ≤ length parts)%nat →
  increment_version now (dotted (Z.of_N <$> parts)) increment
  = Ok (dotted (bump_last (if increment then 1 else -1) (Z.of_N <$> parts))).
Proof.
  intros Hlen.
  destruct parts as [|a [|b [|c more]]]; simpl in Hlen; try lia.
  unfold increment_version.
  destruct (dotted_three a b c more) as [rest Hrest].
  assert (Re.matches pattern (dotted (Z.of_N <$> a :: b :: c :: more)) = true)
    as -> by (rewrite Hrest; apply matches_three_parts).
  assert (PyStr.isdigit (dotted (Z.of_N <$> a :: b :: c :: more)) = false)
    as ->.
  { apply isdigit_no_dot. apply not_false_iff_true.
    rewrite count_char_contains, Hrest, !count_char_app. simpl. lia. }
  simpl negb. cbv iota.
  by rewrite split_dotted, rmap_int_pretty.
Qed.

(** X2: on a dotted version of three or more natural numbers the last
    component goes up (or down) by one and the others are kept: the fourth
    of four, not the patch number. *)
Theorem increment_version_dotted now (parts : list N) increment :
  (3 ≤ length parts)%nat →
  increment_version now (dotted (Z.of_N <$> parts)) increment
  = Ok (dotted (bump_last (if increment then 1 else -1) (Z.of_N <$> parts))).
Proof. apply increment_version_dotted_eq. Qed.

Lemma increment_version_dotted_witness :
  increment_version {| seconds := 0; fraction := "0" |} "1.2.3.9" true
  = Ok "1.2.3.10"
  ∧ increment_version {| seconds := 0; fraction := "0" |} "4.0.0" false
    = Ok "4.0.-1".
Proof.
  split.
  - apply (increment_version_dotted _ [1; 2; 3; 9]%N true). simpl. lia.
  - apply (increment_version_dotted _ [4; 0; 0]%N false). simpl. lia.
Defined.

(** X4: a version with fewer than two dots that is not all digits is
    not incremented: the result is the whole seconds of the clock, with
    either flag.  So it is for "1.2", for "latest", for the empty string
    and for "-1", the decrement of "0". *)
Theorem increment_version_fallback now version_string increment :
  (count_char "." version_string < 2)%nat →
  PyStr.isdigit version_string = false →
  increment_version now version_string increment
  = Ok (pretty (seconds now)).
Proof.
  intros Hdots Hdigit. unfold increment_version.
  rewrite matches_needs_two_dots, Hdigit by done. simpl.
  by rewrite default_version_seconds.
Qed.

Lemma increment_version_fallback_witness :
  increment_version {| seconds := 1730628000; fraction := "25" |} "1.2" true
  = Ok "1730628000"
  ∧ increment_version {| seconds := 1730628000; fraction := "25" |} "-1" true
    = Ok "1730628000".
Proof.
  split.
  - refine (eq_trans (increment_version_fallback _ "1.2" true _ _) _);
      [simpl; lia|reflexivity|vm_compute; reflexivity].
  - refine (eq_trans (increment_version_fallback _ "-1" true _ _) _);
      [simpl; lia|reflexivity|vm_compute; reflexivity].
Defined.

Lemma bump_last_succ (parts : list N) :
  ∃ parts' : list N,
    bump_last 1 (Z.of_N <$> parts) = Z.of_N <$> parts'
    ∧ length parts' = length parts.
Proof.
  induction parts as [|a [|b parts] IH].
  - by exists [].
  - exists [N.succ a]. split; [|done]. simpl. f_equal. lia.
  - destruct IH as (parts' & Heq & Hlen). exists (a :: parts').
    split; [|simpl in *; lia].
    change (Z.of_N a :: bump_last 1 (Z.of_N <$> b :: parts)
            = Z.of_N a :: (Z.of_N <$> parts')).
    by rewrite Heq.
Qed.

Lemma bump_last_back (parts : list Z) :
  bump_last (-1) (bump_last 1 parts) = parts.
Proof.
  induction parts as [|a [|b parts] IH]; [done| |].
  - simpl. f_equal. lia.
  - change (bump_last 1 (a :: b :: parts))
      with (a :: bump_last 1 (b :: parts)).
    destruct (bump_last 1 (b :: parts)) as [|b' parts'] eqn:Hb;
      [by destruct parts|].
    change (a :: bump_last (-1) (b' :: parts') = a :: b :: parts).
    by rewrite IH.
Qed.

(** X3: decrementing an incremented version gives the version back, for
    a natural number in decimal form and for a dotted version of three or
    more natural numbers, whatever the clock shows at either call. *)
Theorem increment_then_decrement now1 now2 :
  (∀ n : N, ∃ v,
     increment_version now1 (pretty n) true = Ok v
     ∧ increment_version now2 v false = Ok (pretty n)) ∧
  (∀ parts : list N, (3 ≤ length parts)%nat → ∃ v,
     increment_version now1 (dotted (Z.of_N <$> parts)) true = Ok v
     ∧ increment_version now2 v false = Ok (dotted (Z.of_N <$> parts))).
Proof.
  split.
  - intros n. exists (pretty (N.succ n)). split.
    + rewrite increment_version_integer_eq, <-pretty_Z_of_N.
      do 2 f_equal. lia.
    + rewrite increment_version_integer_eq, <-pretty_Z_of_N.
      do 2 f_equal. lia.
  - intros parts Hlen.
    destruct (bump_last_succ parts) as (parts' & Heq & Hlen').
    exists (dotted (Z.of_N <$> parts')). split.
    + rewrite increment_version_dotted_eq by done. by rewrite Heq.
    + rewrite increment_version_dotted_eq by lia.
      by rewrite <-Heq, bump_last_back.
Qed.

Lemma increment_then_decrement_witness :
  ∃ v,
    increment_version {| seconds := 5; fraction := "0" |} "2.9.9" true = Ok v
    ∧ increment_version {| seconds := 9; fraction := "5" |} v false
      = Ok "2.9.9".
Proof.
  apply (proj2 (increment_then_decrement _ _) [2; 9; 9]%N). simpl. lia.
Defined.

Lemma rstrip_keeps x ch t :
  PyStr.is_space ch = false →
  PyStr.rstrip (x +:+ String ch t) = x +:+ String ch (PyStr.rstrip t).
Proof.
  intros Hch. induction x as [|d x IH].
  - change (PyStr.rstrip (String ch t) = String ch (PyStr.rstrip t)).
    simpl. rewrite Hch. by destruct (PyStr.rstrip t).
  - change (PyStr.rstrip (String d (x +:+ String ch t))
            = String d (x +:+ String ch (PyStr.rstrip t))).
    simpl. rewrite IH. by destruct x.
Qed.

Lemma rstrip_by_keeps p x ch t :
  p ch = false →
  PyStr.rstrip_by p (x +:+ String ch t)
  = x +:+ String ch (PyStr.rstrip_by p t).
Proof.
  intros Hch. induction x as [|d x IH].
  - change (PyStr.rstrip_by p (String ch t)
            = String ch (PyStr.rstrip_by p t)).
    simpl. rewrite Hch. by destruct (PyStr.rstrip_by p t).
  - change (PyStr.rstrip_by p (String d (x +:+ String ch t))
            = String d (x +:+ String ch (PyStr.rstrip_by p t))).
    simpl. rewrite IH. by destruct x.
Qed.

Lemma int_digits_stops x ch t acc b :
  PyStr.all_chars PyStr.is_decimal x = true →
  PyStr.is_decimal ch = false → ch ≠ "_"%char →
  PyStr.int_digits (x +:+ String ch t) acc b = None.
Proof.
  intros Hx Hch Hu. revert acc b.
  induction x as [|d x IH]; intros acc b.
  - change (PyStr.int_digits (String ch t) acc b = None). simpl.
    rewrite Hch. by destruct (Ascii.eqb_spec ch "_").
  - change (PyStr.int_digits (String d (x +:+ String ch t)) acc b = None).
    simpl in *. apply andb_true_iff in Hx as [-> Hx]. by apply IH.
Qed.

(** [int] of a number followed by something that is no digit, no
    underscore and no white space. *)
Lemma int_suffix_raises (n : N) ch t :
  PyStr.is_decimal ch = false → ch ≠ "_"%char → PyStr.is_space ch = false →
  PyStr.int (pretty n +:+ String ch t)
  = Raise (ValueError_int (pretty n +:+ String ch t)).
Proof.
  intros Hch Hu Hsp.
  destruct (pretty_N_cons n) as (c & s & Heq).
  pose proof (pretty_N_decimal n) as Hd. rewrite Heq in *.
  simpl in Hd. apply andb_true_iff in Hd as [Hc Hs].
  rewrite (int_unsigned _ c
             (s +:+ String ch (PyStr.rstrip_by PyStr.is_int_space t)));
    [|done|].
  - change (String c (s +:+ String ch (PyStr.rstrip_by PyStr.is_int_space t)))
      with (String c s +:+ String ch (PyStr.rstrip_by PyStr.is_int_space t)).
    rewrite int_digits_stops; [done| |done..]. simpl. by rewrite Hc.
  - unfold PyStr.int_strip.
    change (String c s +:+ String ch t) with (String c (s +:+ String ch t)).
    cbn [PyStr.lstrip_by].
    rewrite (not_space_not_int_space c (decimal_not_space c Hc)).
    change (String c (s +:+ String ch t)) with (String c s +:+ String ch t).
    by rewrite rstrip_by_keeps by by apply not_space_not_int_space.
Qed.

Lemma split_prefix c x y :
  PyStr.contains c x = false →
  ∃ w ws, PyStr.split c y = w :: ws
          ∧ PyStr.split c (x +:+ y) = (x +:+ w) :: ws.
Proof.
  intros Hx. induction x as [|d x IH].
  - pose proof (split_nonempty c y).
    destruct (PyStr.split c y) as [|w ws] eqn:Hy; [done|]. by exists w, ws.
  - simpl in Hx. destruct (Ascii.eqb d c) eqn:Hd; [done|].
    destruct (IH Hx) as (w & ws & Hy & Hxy). exists w, ws. split; [done|].
    change (PyStr.split c (String d (x +:+ y)) = String d (x +:+ w) :: ws).
    simpl. by rewrite Hd, Hxy.
Qed.

(** X5: a version of three dotted natural numbers followed at once by a
    character that is no digit, no underscore, no dot and no white space
    (as in "1.2.3-rc1" or "1.2.3b") matches the pattern, so there is no
    fall back to the clock: the call raises the ValueError of [int]. *)
Theorem increment_version_suffix_raises now (a b c : N) ch tail increment :
  PyStr.is_decimal ch = false → ch ≠ "_"%char → ch ≠ "."%char →
  PyStr.is_space ch = false →
  ∃ literal,
    increment_version now
      (pretty a +:+ "." +:+ pretty b +:+ "." +:+ pretty c +:+ String ch tail)
      increment
    = Raise (ValueError_int literal).
Proof.
  intros Hch Hu Hdot Hsp. unfold increment_version.
  rewrite matches_three_parts.
  assert (PyStr.isdigit
            (pretty a +:+ "." +:+ pretty b +:+ "." +:+ pretty c
             +:+ String ch tail) = false) as ->.
  { apply isdigit_no_dot, not_false_iff_true.
    rewrite count_char_contains, !count_char_app. simpl. lia. }
  simpl negb. cbv iota.
  change ("." +:+ pretty b +:+ "." +:+ pretty c +:+ String ch tail)
    with (String "." (pretty b +:+ "." +:+ pretty c +:+ String ch tail)).
  rewrite split_app by apply pretty_N_no_dot.
  change ("." +:+ pretty c +:+ String ch tail)
    with (String "." (pretty c +:+ String ch tail)).
  rewrite split_app by apply pretty_N_no_dot.
  destruct (split_prefix "." (pretty c) (String ch tail))
    as (w & ws & Hy & ->); [apply pretty_N_no_dot|].
  simpl in Hy. destruct (Ascii.eqb_spec ch ".") as [|_]; [done|].
  destruct (PyStr.split "." tail) as [|w' ws'] eqn:Htail;
    injection Hy as <- <-.
  - cbn [rmap]. rewrite !int_pretty_N, int_suffix_raises by done.
    by eexists.
  - cbn [rmap]. rewrite !int_pretty_N, int_suffix_raises by done.
    by eexists.
Qed.

Lemma increment_version_suffix_raises_witness :
  ∃ literal,
    increment_version {| seconds := 5; fraction := "0" |} "1.2.3-rc1" true
    = Raise (ValueError_int literal).
Proof.
  apply (increment_version_suffix_raises _ 1 2 3 "-" "rc1" true);
    [reflexivity|discriminate|discriminate|reflexivity].
Defined.

(** C5: [increment_version] on "1.2.3" gives "1.2.4", with
    [increment=False] "1.2.2", on "7" gives "8", and on "abc" the fallback
    version, the seconds of the clock reading.  The general clause fails:
    "1.2.3-rc1" is neither of the form major.minor.patch nor all digits, and
    [increment_version] raises the ValueError of [int("3-rc1")] instead of
    returning the fallback version, because [re.match] is satisfied with the
    prefix "1.2.3": the test of the code passes on every string that goes on
    after a prefix of that form.  For the same reason "1.2.3.4" is
    incremented to "1.2.3.5". *)
Theorem increment_version_prefix_match :
  (∀ now, increment_version now "1.2.3" true = Ok "1.2.4") ∧
  (∀ now, increment_version now "1.2.3" false = Ok "1.2.2") ∧
  (∀ now, increment_version now "7" true = Ok "8") ∧
  (∀ now, increment_version now "abc" true = Ok (pretty (seconds now))) ∧
  (major_minor_patch "1.2.3-rc1" = false ∧
   PyStr.isdigit "1.2.3-rc1" = false ∧
   ∀ now increment,
     increment_version now "1.2.3-rc1" increment
     = Raise (ValueError_int "3-rc1")) ∧
  (major_minor_patch "1.2.3.4" = false ∧
   PyStr.isdigit "1.2.3.4" = false ∧
   ∀ now, increment_version now "1.2.3.4" true = Ok "1.2.3.5") ∧
  (∀ p q, major_minor_patch p = true →
          Re.matches pattern (p +:+ q) = true).
Proof.
  split_and!; try reflexivity.
  - intros now. unfold increment_version. simpl.
    by rewrite default_version_seconds.
  - intros p q Hp. apply matches_major_minor_patch. by exists p, q.
Qed.

End VersionFacts.

(** ** Manifests, in general *)

Section DiffFacts.

Lemma compare_entry_lookup i a b acc k :
  compare_entry i a b acc !! k
  = match compare_entry i a b ∅ !! k with
    | Some v => Some v
    | None => acc !! k
    end.
Proof.
  destruct a as [x|x], b as [y|y]; unfold compare_entry; repeat case_decide.
  all: rewrite ?lookup_empty; try done.
  all: rewrite !lookup_insert; case_decide; by rewrite ?lookup_empty.
Qed.

Lemma reports_key i a b k v :
  reports i a b k v →
  ∃ p, p ∈ ["item_"; "pip_"; "type_mismatch_"] ∧ k = p +:+ pretty i.
Proof.
  unfold reports.
  destruct a as [x|x], b as [y|y]; unfold compare_entry; repeat case_decide.
  all: rewrite ?lookup_empty; try done.
  all: rewrite lookup_insert; case_decide; rewrite ?lookup_empty; [|done].
  all: intros _; eexists; (split; [|done]).
  all: rewrite !elem_of_cons; auto.
Qed.

Lemma positional_key_inj (i j : nat) p q :
  p ∈ ["item_"; "pip_"; "type_mismatch_"] →
  q ∈ ["item_"; "pip_"; "type_mismatch_"] →
  p +:+ pretty i = q +:+ pretty j → i = j.
Proof.
  rewrite !elem_of_cons, !elem_of_nil. intros Hp Hq Heq.
  destruct_or!; subst; try done; try discriminate Heq.
  all: by simplify_eq.
Qed.

Lemma reports_index i j a b a' b' k v v' :
  reports i a b k v → reports j a' b' k v' → i = j.
Proof.
  intros (p & Hp & ->)%reports_key (q & Hq & Heq)%reports_key.
  by apply (positional_key_inj i j p q).
Qed.

(** What the loop leaves under a key: the entry of the one position that
    reports the key, or what was there before. *)
Lemma compare_entries_lookup l1 l2 j acc k v :
  compare_entries j l1 l2 acc !! k = Some v ↔
  (∃ i a b, l1 !! i = Some a ∧ l2 !! i = Some b ∧ reports (j + i) a b k v)
  ∨ ((∀ i a b v', l1 !! i = Some a → l2 !! i = Some b →
                  ¬ reports (j + i) a b k v')
     ∧ acc !! k = Some v).
Proof.
  revert l2 j acc.
  induction l1 as [|a l1 IH]; intros [|b l2] j acc; simpl;
    try (split; [intros Hacc; right; by split|
                 intros [(i & a' & b' & Ha & Hb & _)|[_ Hacc]]; [|done];
                 by destruct i]).
  rewrite IH, compare_entry_lookup. split.
  - intros [(i & a' & b' & Ha & Hb & Hr)|[Hno Hhead]].
    + left. exists (S i), a', b'. split_and!; [done..|].
      by replace (j + S i) with (S j + i) by lia.
    + destruct (compare_entry j a b ∅ !! k) as [v0|] eqn:Hj.
      * injection Hhead as ->. left. exists 0, a, b.
        split_and!; [done..|]. by rewrite Nat.add_0_r.
      * right. split; [|done]. intros [|i] a' b' v' Ha Hb Hr.
        -- simplify_eq/=. rewrite Nat.add_0_r in Hr.
           unfold reports in Hr. congruence.
        -- apply (Hno i a' b' v' Ha Hb).
           by replace (S j + i) with (j + S i) by lia.
  - intros [(i & a' & b' & Ha & Hb & Hr)|[Hno Hacc]].
    + destruct i as [|i].
      * simplify_eq/=. rewrite Nat.add_0_r in Hr. right. split.
        -- intros i a0 b0 v' Ha0 Hb0 Hr0.
           pose proof (reports_index _ _ _ _ _ _ _ _ _ Hr Hr0). lia.
        -- unfold reports in Hr. by rewrite Hr.
      * left. exists i, a', b'. split_and!; [done..|].
        by replace (S j + i) with (j + S i) by lia.
    + right. split.
      * intros i a' b' v' Ha Hb Hr. apply (Hno (S i) a' b' v' Ha Hb).
        by replace (j + S i) with (S j + i) by lia.
      * destruct (compare_entry j a b ∅ !! k) as [v0|] eqn:Hj; [|done].
        exfalso. apply (Hno 0 a b v0 eq_refl eq_refl).
        by rewrite Nat.add_0_r.
Qed.

Lemma reports_item j a b i v :
  reports j a b ("item_" +:+ pretty i) v ↔
  j = i ∧ ∃ x y, a = DepStr x ∧ b = DepStr y ∧ x ≠ y ∧ v = DItem x y.
Proof.
  unfold reports.
  destruct a as [x|x], b as [y|y]; unfold compare_entry; repeat case_decide.
  all: rewrite ?lookup_empty, ?lookup_insert; repeat case_decide;
    rewrite ?lookup_empty.
  all: try discriminate.
  all: split;
    [intros ?; simplify_eq; try (split; [done|]; by repeat eexists)
    |intros (? & ? & ? & ? & ? & ? & ?); by simplify_eq].
Qed.

Lemma reports_pip j a b i v :
  reports j a b ("pip_" +:+ pretty i) v ↔
  j = i ∧ ∃ x y, a = DepPip x ∧ b = DepPip y ∧ x ≠ y
                 ∧ v = DPip (symmetric_difference x y).
Proof.
  unfold reports.
  destruct a as [x|x], b as [y|y]; unfold compare_entry; repeat case_decide.
  all: rewrite ?lookup_empty, ?lookup_insert; repeat case_decide;
    rewrite ?lookup_empty.
  all: try discriminate.
  all: split;
    [intros ?; simplify_eq; try (split; [done|]; by repeat eexists)
    |intros (? & ? & ? & ? & ? & ? & ?); by simplify_eq].
Qed.

Lemma reports_type_mismatch j a b i v :
  reports j a b ("type_mismatch_" +:+ pretty i) v ↔
  j = i ∧ type_of a ≠ type_of b ∧ v = DTypeMismatch (type_of a) (type_of b).
Proof.
  unfold reports.
  destruct a as [x|x], b as [y|y]; unfold compare_entry; repeat case_decide.
  all: rewrite ?lookup_empty, ?lookup_insert; repeat case_decide;
    rewrite ?lookup_empty.
  all: try discriminate.
  all: split;
    [intros ?; by simplify_eq
    |intros (? & ? & ?); by simplify_eq].
Qed.

Lemma _compare_dependencies_lookup a b k v :
  k ≠ "length" →
  _compare_dependencies a b !! k = Some v ↔
  ∃ i da db, dependencies a !! i = Some da ∧ dependencies b !! i = Some db
             ∧ reports i da db k v.
Proof.
  intros Hk. unfold _compare_dependencies. cbv zeta.
  rewrite compare_entries_lookup. split; [|by left].
  intros [Hr|[_ Hinit]]; [done|].
  case_decide; [by rewrite lookup_singleton_ne in Hinit|done].
Qed.

(** X9: the dependency diff reports each position on its own, and
    nothing else.  Under "item_i" it holds the pair of two differing
    specifiers at position [i]; under "pip_i" the symmetric difference of
    two differing pip groups; under "type_mismatch_i" the two types of a
    specifier facing a group; under "length" the two lengths when they
    differ.  A position that holds the same entry on both sides, or that
    lies beyond the shorter list, has no key, and the diff has no key of
    another shape: every key is "length" or one of the three prefixes
    followed by a position that both lists have. *)
Theorem _compare_dependencies_positions a b i v :
  (_compare_dependencies a b !! ("item_" +:+ pretty i) = Some v ↔
   ∃ x y, dependencies a !! i = Some (DepStr x)
          ∧ dependencies b !! i = Some (DepStr y)
          ∧ x ≠ y ∧ v = DItem x y) ∧
  (_compare_dependencies a b !! ("pip_" +:+ pretty i) = Some v ↔
   ∃ x y, dependencies a !! i = Some (DepPip x)
          ∧ dependencies b !! i = Some (DepPip y)
          ∧ x ≠ y ∧ v = DPip (symmetric_difference x y)) ∧
  (_compare_dependencies a b !! ("type_mismatch_" +:+ pretty i) = Some v ↔
   ∃ da db, dependencies a !! i = Some da ∧ dependencies b !! i = Some db
            ∧ type_of da ≠ type_of db
            ∧ v = DTypeMismatch (type_of da) (type_of db)) ∧
  (_compare_dependencies a b !! "length" = Some v ↔
   length (dependencies a) ≠ length (dependencies b)
   ∧ v = DLength (length (dependencies a)) (length (dependencies b))) ∧
  (∀ k v', _compare_dependencies a b !! k = Some v' →
     k = "length"
     ∨ ∃ j : nat,
         (j < length (dependencies a))%nat ∧ (j < length (dependencies b))%nat
         ∧ (k = "item_" +:+ pretty j ∨ k = "pip_" +:+ pretty j
            ∨ k = "type_mismatch_" +:+ pretty j)).
Proof.
  split_and!.
  - rewrite _compare_dependencies_lookup by done. split.
    + intros (j & da & db & Ha & Hb & (-> & x & y & -> & -> & ? & ->)%reports_item).
      by exists x, y.
    + intros (x & y & Ha & Hb & Hxy & ->). exists i, (DepStr x), (DepStr y).
      split_and!; [done..|]. apply reports_item. naive_solver.
  - rewrite _compare_dependencies_lookup by done. split.
    + intros (j & da & db & Ha & Hb & (-> & x & y & -> & -> & ? & ->)%reports_pip).
      by exists x, y.
    + intros (x & y & Ha & Hb & Hxy & ->). exists i, (DepPip x), (DepPip y).
      split_and!; [done..|]. apply reports_pip. naive_solver.
  - rewrite _compare_dependencies_lookup by done. split.
    + intros (j & da & db & Ha & Hb & (-> & ? & ->)%reports_type_mismatch).
      by exists da, db.
    + intros (da & db & Ha & Hb & Hty & ->). exists i, da, db.
      split_and!; [done..|]. by apply reports_type_mismatch.
  - unfold _compare_dependencies. cbv zeta.
    rewrite compare_entries_lookup. split.
    + intros [(j & da & db & _ & _ & (p & Hp & Heq)%reports_key)|[_ Hinit]].
      * rewrite !elem_of_cons, elem_of_nil in Hp.
        destruct_or!; subst; done.
      * case_decide; [|done].
        rewrite lookup_singleton_eq in Hinit. by injection Hinit as <-.
    + intros [Hlen ->]. right. split.
      * intros j da db v' _ _ (p & Hp & Heq)%reports_key.
        rewrite !elem_of_cons, elem_of_nil in Hp.
        destruct_or!; subst; done.
      * by rewrite decide_True, lookup_singleton_eq.
  - intros k v' Hk. destruct (decide (k = "length")) as [|Hne]; [by left|].
    right. apply _compare_dependencies_lookup in Hk; [|done].
    destruct Hk as (j & da & db & Ha & Hb & (p & Hp & ->)%reports_key).
    exists j. apply lookup_lt_Some in Ha, Hb.
    split; [exact Ha|]. split; [exact Hb|].
    rewrite !elem_of_cons, elem_of_nil in Hp.
    destruct_or!; subst; auto.
Qed.

Lemma compare_entries_app_r j (l extra : list dependency) acc :
  compare_entries j l (l ++ extra)%list acc = acc.
Proof.
  revert j acc. induction l as [|d l IH]; intros j acc; simpl.
  - by destruct extra.
  - by rewrite compare_entry_same, IH.
Qed.

Lemma compare_entries_app_l j (l extra : list dependency) acc :
  compare_entries j (l ++ extra)%list l acc = acc.
Proof.
  revert j acc. induction l as [|d l IH]; intros j acc; simpl.
  - by destruct extra.
  - by rewrite compare_entry_same, IH.
Qed.

(** X8: entries past the end of the shorter dependency list are not
    looked at.  When one manifest is the other with dependencies added at
    the end, the whole diff is the length entry: which dependencies were
    added does not show. *)
Theorem compare_appended a b (extra : list dependency) :
  name a = name b → channels a = channels b →
  dependencies b = (dependencies a ++ extra)%list → extra ≠ [] →
  let n := length (dependencies a) in
  compare a b
  = {["dependencies" :=
        DiffDependencies {["length" := DLength n (n + length extra)]}]}
  ∧ compare b a
    = {["dependencies" :=
          DiffDependencies {["length" := DLength (n + length extra) n]}]}.
Proof.
  intros Hn Hc Hd Hextra n.
  assert (length extra ≠ 0) as Hlen by by destruct extra.
  unfold compare, _compare_dependencies. cbv zeta.
  rewrite Hd, compare_entries_app_r, compare_entries_app_l, length_app.
  rewrite (decide_False (P:=name a ≠ name b)) by naive_solver.
  rewrite (decide_False (P:=name b ≠ name a)) by naive_solver.
  rewrite (decide_False (P:=channels a ≠ channels b)) by naive_solver.
  rewrite (decide_False (P:=channels b ≠ channels a)) by naive_solver.
  rewrite (decide_True (P:=length _ ≠ length _ + _)) by (fold n; lia).
  rewrite (decide_True (P:=length _ + _ ≠ length _)) by (fold n; lia).
  rewrite !decide_True by apply map_non_empty_singleton. done.
Qed.

Lemma compare_appended_witness :
  let a := {| name := "env"; channels := None;
              dependencies := [DepStr "python=3.9"] |} in
  let b := {| name := "env"; channels := None;
              dependencies := [DepStr "python=3.9"; DepStr "numpy";
                               DepPip ["mlflow"]] |} in
  compare a b
  = {["dependencies" := DiffDependencies {["length" := DLength 1 3]}]}.
Proof.
  intros a b.
  apply (proj1 (compare_appended a b [DepStr "numpy"; DepPip ["mlflow"]]
                  eq_refl eq_refl eq_refl ltac:(discriminate))).
Defined.

Lemma _compare_dependencies_nonempty a b :
  _compare_dependencies a b ≠ ∅ ↔ dependencies a ≠ dependencies b.
Proof.
  split.
  - intros Hne Heq. apply Hne. unfold _compare_dependencies. cbv zeta.
    rewrite Heq, compare_entries_same. by rewrite decide_False by naive_solver.
  - intros Hne Hempty. by apply Hne, _compare_dependencies_empty.
Qed.

Lemma compare_lookup a b k v :
  compare a b !! k = Some v ↔
  (k = "name" ∧ name a ≠ name b ∧ v = DiffName (name a) (name b))
  ∨ (k = "channels" ∧ channels a ≠ channels b
     ∧ v = DiffChannels (_compare_channels a b))
  ∨ (k = "dependencies" ∧ dependencies a ≠ dependencies b
     ∧ v = DiffDependencies (_compare_dependencies a b)).
Proof.
  rewrite <-_compare_dependencies_nonempty.
  unfold compare. cbv zeta. repeat case_decide.
  all: rewrite ?lookup_insert, ?lookup_empty; repeat case_decide;
    rewrite ?lookup_empty.
  all: split; [intros ?; simplify_eq; auto 10|].
  all: intros [(-> & ? & ->)|[(-> & ? & ->)|(-> & ? & ->)]]; done.
Qed.

(** X7: the diff of two manifests has a key for exactly the fields that
    differ: "name" with the two names, "channels" with what
    [_compare_channels] returns, "dependencies" with the dependency diff;
    it has no other key. *)
Theorem compare_keys a b k v :
  compare a b !! k = Some v ↔
  (k = "name" ∧ name a ≠ name b ∧ v = DiffName (name a) (name b))
  ∨ (k = "channels" ∧ channels a ≠ channels b
     ∧ v = DiffChannels (_compare_channels a b))
  ∨ (k = "dependencies" ∧ dependencies a ≠ dependencies b
     ∧ v = DiffDependencies (_compare_dependencies a b)).
Proof. apply compare_lookup. Qed.

(** X10: under "channels" the diff never holds the empty dictionary that
    [_compare_channels] has for two absent channel lists: it holds the
    "missing" marker with the other list when exactly one side has no
    channels, and otherwise the symmetric difference of two lists that
    differ. *)
Theorem compare_channels_value a b d :
  compare a b !! "channels" = Some (DiffChannels d) →
  d ≠ ChNone ∧
  match channels a, channels b with
  | None, None => False
  | None, Some cb => d = ChMissingSelf cb
  | Some ca, None => d = ChMissingOther ca
  | Some ca, Some cb => ca ≠ cb ∧ d = ChSymDiff (symmetric_difference ca cb)
  end.
Proof.
  intros [(Hk & _)|[(_ & Hne & Hv)|(Hk & _)]]%compare_lookup;
    [done| |done].
  injection Hv as ->. unfold _compare_channels.
  destruct (channels a) as [ca|], (channels b) as [cb|];
    split; try done. split; [congruence|done].
Qed.

Lemma compare_channels_value_witness :
  let a := {| name := "env"; channels := None; dependencies := [] |} in
  let b := {| name := "env"; channels := Some ["conda-forge"];
              dependencies := [] |} in
  ChMissingSelf ["conda-forge"] ≠ ChNone
  ∧ ChMissingSelf ["conda-forge"] = ChMissingSelf ["conda-forge"].
Proof.
  intros a b.
  apply (compare_channels_value a b (ChMissingSelf ["conda-forge"])).
  reflexivity.
Defined.

(** X6: [is_equal] is true exactly when the two manifests have the same
    name, the same channels and the same dependency list, and it does not
    matter which of the two is asked. *)
Theorem is_equal_decides a b :
  (is_equal a b = true ↔
   name a = name b ∧ channels a = channels b
   ∧ dependencies a = dependencies b)
  ∧ is_equal a b = is_equal b a.
Proof.
  split.
  - rewrite is_equal_true_iff. split; [by intros ->|].
    destruct a, b; simpl. by intros (-> & -> & ->).
  - destruct (is_equal a b) eqn:Hab; symmetry.
    + apply is_equal_true_iff. symmetry. by apply is_equal_true_iff.
    + apply is_equal_false_iff. apply is_equal_false_iff in Hab. congruence.
Qed.

End DiffFacts.

(** ** The reconciler, path by path *)

Section ReconcilerPaths.

Context {conda build_context : Type}.
Context (EnvironmentSchema_init : conda → result EnvironmentSchema).

Abbreviation Environment' := (@Environment conda build_context).
Abbreviation world' := (@world conda build_context).

Lemma labelled_latest_skip (pre rest : list Environment') :
  (∀ e, e ∈ pre → ∃ label, properties e !! "azureml.labels" = Some label
                           ∧ label ≠ "latest") →
  labelled_latest (pre ++ rest)%list = labelled_latest rest.
Proof.
  induction pre as [|e pre IH]; intros Hpre; [done|].
  destruct (Hpre e) as (label & Hl & Hne); [left|].
  change (labelled_latest (e :: (pre ++ rest)%list) = labelled_latest rest).
  cbn [labelled_latest]. rewrite Hl, IH.
  - destruct (labelled_latest rest); simpl; [|done].
    by rewrite decide_False.
  - intros e' He'. apply Hpre. by right.
Qed.

Lemma labelled_latest_total (l : list Environment') :
  (∀ e, e ∈ l → is_Some (properties e !! "azureml.labels")) →
  ∃ found, labelled_latest l = Ok found.
Proof.
  induction l as [|e l IH]; intros Hl; [by eexists|].
  destruct (Hl e) as [label Hlabel]; [left|].
  destruct IH as [found Hfound]; [intros e' He'; apply Hl; by right|].
  cbn [labelled_latest]. rewrite Hlabel, Hfound. by eexists.
Qed.

Lemma labelled_latest_missing (l : list Environment') e :
  e ∈ l → properties e !! "azureml.labels" = None →
  labelled_latest l = Raise (KeyError "azureml.labels").
Proof.
  induction l as [|e' l IH]; [by intros ?%elem_of_nil|].
  intros [->|Hin]%elem_of_cons Hnone; cbn [labelled_latest].
  - by rewrite Hnone.
  - destruct (properties e' !! "azureml.labels"); [|done].
    by rewrite IH.
Qed.

(** X11: of the environments registered under the name, [get_latest]
    returns the first whose "azureml.labels" property is "latest",
    provided every one of them has that property. *)
Theorem get_latest_first (w : world') env_name
    (pre : list Environment') env post :
  environments_list w env_name = Ok (pre ++ env :: post)%list →
  (∀ e, e ∈ (pre ++ env :: post)%list →
        is_Some (properties e !! "azureml.labels")) →
  (∀ e, e ∈ pre → properties e !! "azureml.labels" ≠ Some "latest") →
  properties env !! "azureml.labels" = Some "latest" →
  get_latest env_name w = (Ok (Some env), w).
Proof.
  intros Hlist Hall Hpre Henv. unfold get_latest. rewrite Hlist.
  rewrite labelled_latest_skip.
  - destruct (labelled_latest_total post) as [found Hfound].
    { intros e He. apply Hall. rewrite elem_of_app, elem_of_cons. auto. }
    cbn [labelled_latest]. by rewrite Henv, Hfound.
  - intros e He. destruct (Hall e) as [label Hlabel].
    { rewrite elem_of_app. auto. }
    exists label. split; [done|]. intros ->. by apply (Hpre e).
Qed.

(** X12: [get_latest] returns [None] only when listing the name raises
    ResourceNotFoundError.  A listing in which no environment is labelled
    "latest" (the empty listing included) raises IndexError, and a listing
    with an environment that has no "azureml.labels" property raises
    KeyError, whatever the labels of the others. *)
Theorem get_latest_absent (w : world') env_name :
  ((get_latest env_name w).1 = Ok None ↔
   environments_list w env_name = Raise ResourceNotFoundError) ∧
  (∀ l, environments_list w env_name = Ok l →
        (∀ e, e ∈ l → ∃ label, properties e !! "azureml.labels" = Some label
                               ∧ label ≠ "latest") →
        get_latest env_name w = (Raise IndexError, w)) ∧
  (∀ l e, environments_list w env_name = Ok l →
          e ∈ l → properties e !! "azureml.labels" = None →
          get_latest env_name w = (Raise (KeyError "azureml.labels"), w)).
Proof.
  split_and!.
  - unfold get_latest. split.
    + destruct (environments_list w env_name) as [l|e]; [|by destruct e].
      by destruct (labelled_latest l) as [[|]|].
    + by intros ->.
  - intros l Hlist Hnone. unfold get_latest. rewrite Hlist.
    rewrite <-(app_nil_r l), labelled_latest_skip by done. done.
  - intros l e Hlist Hin Hnone. unfold get_latest.
    by rewrite Hlist, (labelled_latest_missing l e).
Qed.




End ReconcilerPaths.

Lemma get_latest_first_witness :
  get_latest "train-env"
    (ReconcilerExample.world_with ReconcilerExample.manifest_v1)
  = (Ok (Some ReconcilerExample.registered),
     ReconcilerExample.world_with ReconcilerExample.manifest_v1).
Proof.
  apply (get_latest_first _ "train-env" [] ReconcilerExample.registered []).
  - reflexivity.
  - intros e ->%list_elem_of_singleton. by eexists.
  - intros e []%elem_of_nil.
  - reflexivity.
Defined.

Lemma get_latest_absent_witness :
  let w : @world EnvironmentSchema string :=
    {| environments_list := λ _, Ok [];
       pushed := []; files := ∅;
       clock := λ _, {| seconds := 0; fraction := "0" |};
       clock_reads := 0; stdin := [] |} in
  get_latest "train-env" w = (Raise IndexError, w).
Proof.
  intros w.
  apply (proj1 (proj2 (get_latest_absent w "train-env")) [] eq_refl).
  intros e []%elem_of_nil.
Defined.




(** ** The resolvers, in general *)

Section ResolverFacts.

Import DataSchema.

Variable environ : gmap string string.
Variable self : DataSchema.t.

Lemma rstrip_cons c s :
  PyStr.rstrip (String c s)
  = match PyStr.rstrip s with
    | "" => if PyStr.is_space c then "" else String c ""
    | r => String c r
    end.
Proof. done. Qed.

Lemma rstrip_idem s : PyStr.rstrip (PyStr.rstrip s) = PyStr.rstrip s.
Proof.
  induction s as [|c s IH]; [done|]. rewrite rstrip_cons.
  destruct (PyStr.rstrip s) as [|d r] eqn:Hr.
  - destruct (PyStr.is_space c) eqn:Hc; [done|].
    by rewrite rstrip_cons, Hc.
  - by rewrite rstrip_cons, IH.
Qed.

Lemma lstrip_head s :
  PyStr.lstrip s = ""
  ∨ ∃ c r, PyStr.lstrip s = String c r ∧ PyStr.is_space c = false.
Proof.
  induction s as [|c s IH]; [by left|]. simpl.
  destruct (PyStr.is_space c) eqn:Hc; [done|]. right. by exists c, s.
Qed.

Lemma rstrip_head c r :
  PyStr.is_space c = false → ∃ r', PyStr.rstrip (String c r) = String c r'.
Proof.
  intros Hc. simpl. rewrite Hc. destruct (PyStr.rstrip r); by eexists.
Qed.

(** [strip] does nothing to a stripped string. *)
Lemma strip_idem s : PyStr.strip (PyStr.strip s) = PyStr.strip s.
Proof.
  unfold PyStr.strip.
  destruct (lstrip_head s) as [->|(c & r & -> & Hc)]; [done|].
  destruct (rstrip_head c r Hc) as [r' Hr]. rewrite Hr.
  cbn [PyStr.lstrip]. rewrite Hc, <-Hr. apply rstrip_idem.
Qed.

Lemma contains_lstrip c s :
  PyStr.contains c s = false → PyStr.contains c (PyStr.lstrip s) = false.
Proof.
  induction s as [|d s IH]; [done|]. simpl.
  destruct (Ascii.eqb d c) eqn:Hd; [done|]. intros Hs.
  destruct (PyStr.is_space d); [auto|]. simpl. by rewrite Hd.
Qed.

Lemma contains_rstrip c s :
  PyStr.contains c s = false → PyStr.contains c (PyStr.rstrip s) = false.
Proof.
  induction s as [|d s IH]; [done|]. simpl.
  destruct (Ascii.eqb d c) eqn:Hd; [done|]. intros Hs.
  specialize (IH Hs).
  destruct (PyStr.rstrip s) as [|e r].
  - destruct (PyStr.is_space d); [done|]. simpl. by rewrite Hd.
  - change (PyStr.contains c (String d (String e r)) = false).
    cbn [PyStr.contains]. rewrite Hd. exact IH.
Qed.

Lemma contains_strip c s :
  PyStr.contains c s = false → PyStr.contains c (PyStr.strip s) = false.
Proof. intros Hs. by apply contains_rstrip, contains_lstrip. Qed.

(** [get_aml_uri] on a reference cut at its first colon, by what the
    environment holds. *)
Lemma get_aml_uri_segments a rest subs rg ws :
  PyStr.contains ":" a = false →
  environ !! "SUBSCRIPTION_ID" = Some subs →
  environ !! "RESOURCE_GROUP" = Some rg →
  environ !! "WORKSPACE_NAME" = Some ws →
  get_aml_uri environ (a +:+ String ":" rest)
  = Ok (uri_template subs rg ws (PyStr.strip a)
          (drop_slash (PyStr.strip (hd "" (PyStr.split ":" rest))))).
Proof.
  intros Ha Hs Hr Hw. unfold get_aml_uri, environ_get.
  rewrite split_app by done. simpl.
  pose proof (split_nonempty ":" rest).
  destruct (PyStr.split ":" rest) as [|w' ws']; [done|]. simpl.
  by rewrite Hs, Hr, Hw.
Qed.

Lemma get_aml_uri_no_colon s :
  PyStr.contains ":" s = false → get_aml_uri environ s = Raise IndexError.
Proof.
  intros Hs. unfold get_aml_uri. by rewrite split_no_sep.
Qed.

Lemma __get_ds_uri_no_colon s :
  PyStr.contains ":" s = false →
  __get_ds_uri self s = Raise (ValueError "substring not found").
Proof.
  intros Hs. unfold __get_ds_uri.
  assert (PyStr.index ":" s = None) as ->; [|done].
  induction s as [|c s IH]; [done|]. simpl in *.
  destruct (Ascii.eqb c ":"); [done|]. by rewrite IH.
Qed.

Lemma strip_fixed p :
  PyStr.strip p = p → PyStr.lstrip p = p ∧ PyStr.rstrip p = p.
Proof.
  intros Hp. assert (PyStr.lstrip p = p) as Hl.
  { destruct (lstrip_head p) as [Hl|(c & r & Hl & Hc)].
    - unfold PyStr.strip in Hp. rewrite Hl in Hp. by subst p.
    - destruct (rstrip_head c r Hc) as [r' Hr].
      unfold PyStr.strip in Hp. rewrite Hl, Hr in Hp. subst p.
      cbn [PyStr.lstrip]. by rewrite Hc. }
  split; [done|]. unfold PyStr.strip in Hp. by rewrite Hl in Hp.
Qed.

Lemma strip_slash p :
  PyStr.strip p = p → PyStr.strip (String "/" p) = String "/" p.
Proof.
  intros [_ Hr]%strip_fixed. unfold PyStr.strip.
  change (PyStr.lstrip (String "/" p)) with (String "/" p).
  pose proof (rstrip_keeps "" "/" p eq_refl) as Hk.
  change ("" +:+ String "/" p) with (String "/" p) in Hk.
  change ("" +:+ String "/" (PyStr.rstrip p))
    with (String "/" (PyStr.rstrip p)) in Hk.
  by rewrite Hk, Hr.
Qed.

(** X19: both resolvers drop exactly one slash after the colon:
    "store:/path" and "store:path" resolve to the same URI, and of
    "store://path" one slash stays in the path. *)
Theorem leading_slash_dropped_once store p :
  PyStr.contains ":" store = false → PyStr.contains ":" p = false →
  PyStr.startswith "/" p = false →
  PyStr.strip store = store → PyStr.strip p = p →
  ambient_agree environ (client self) →
  let uri pth :=
    Ok (uri_template (subscription_id (client self))
          (resource_group_name (client self)) (workspace_name (client self))
          store pth) in
  (__get_ds_uri self (store +:+ ":" +:+ p) = uri p
   ∧ __get_ds_uri self (store +:+ ":/" +:+ p) = uri p
   ∧ __get_ds_uri self (store +:+ "://" +:+ p) = uri ("/" +:+ p))
  ∧ (get_aml_uri environ (store +:+ ":" +:+ p) = uri p
     ∧ get_aml_uri environ (store +:+ ":/" +:+ p) = uri p
     ∧ get_aml_uri environ (store +:+ "://" +:+ p) = uri ("/" +:+ p)).
Proof.
  intros Hstore Hp Hslash Hs1 Hs2 (Hsub & Hrg & Hws) uri. subst uri.
  pose proof (strip_slash p Hs2) as Hs3.
  pose proof (strip_slash _ Hs3) as Hs4.
  assert (drop_slash p = p) as Hd0 by (unfold drop_slash; by rewrite Hslash).
  assert (drop_slash (String "/" p) = p) as Hd1
    by by rewrite drop_slash_String.
  assert (drop_slash (String "/" (String "/" p)) = String "/" p) as Hd2
    by by rewrite drop_slash_String.
  assert (∀ pre, PyStr.contains ":" pre = false →
                 hd "" (PyStr.split ":" (pre +:+ p)) = pre +:+ p) as Hhd.
  { intros pre Hpre. rewrite split_no_sep; [done|].
    apply count_char_contains. rewrite count_char_app.
    apply count_char_contains in Hpre, Hp. lia. }
  pose proof (Hhd "" eq_refl) as Hh0.
  pose proof (Hhd "/" eq_refl) as Hh1.
  pose proof (Hhd "//" eq_refl) as Hh2.
  change ("" +:+ p) with p in Hh0.
  change ("/" +:+ p) with (String "/" p) in *.
  change ("//" +:+ p) with (String "/" (String "/" p)) in *.
  change (store +:+ ":" +:+ p) with (store +:+ String ":" p).
  change (store +:+ ":/" +:+ p) with (store +:+ String ":" (String "/" p)).
  change (store +:+ "://" +:+ p)
    with (store +:+ String ":" (String "/" (String "/" p))).
  rewrite !__get_ds_uri_cut by done.
  rewrite !(get_aml_uri_segments _ _ _ _ _ Hstore Hsub Hrg Hws).
  rewrite Hh0, Hh1, Hh2, Hs1, Hs2, Hs3, Hs4, Hd0, Hd1, Hd2. done.
Qed.

(** X20: both resolvers read only what lies between the first and the
    second colon as the path: from a second colon on, the reference is
    dropped without an error. *)
Theorem second_colon_truncates store p rest :
  PyStr.contains ":" store = false → PyStr.contains ":" p = false →
  __get_ds_uri self (store +:+ ":" +:+ p +:+ ":" +:+ rest)
  = __get_ds_uri self (store +:+ ":" +:+ p)
  ∧ get_aml_uri environ (store +:+ ":" +:+ p +:+ ":" +:+ rest)
    = get_aml_uri environ (store +:+ ":" +:+ p).
Proof.
  intros Hstore Hp.
  change (store +:+ ":" +:+ p +:+ ":" +:+ rest)
    with (store +:+ String ":" (p +:+ String ":" rest)).
  change (store +:+ ":" +:+ p) with (store +:+ String ":" p).
  assert (hd "" (PyStr.split ":" (p +:+ String ":" rest))
          = hd "" (PyStr.split ":" p)) as Hhd.
  { rewrite split_app by done. by rewrite (split_no_sep ":" p). }
  split.
  - by rewrite !__get_ds_uri_cut, Hhd.
  - unfold get_aml_uri. rewrite !split_app by done.
    rewrite (split_no_sep ":" p) by done. done.
Qed.

(** X21: what the resolvers need.  [get_aml_uri] returns exactly when the
    reference holds a colon and the three variables are set; without a
    colon it raises IndexError whatever the environment is, and with one
    it raises the KeyError of the first variable that is missing, in the
    order subscription, resource group, workspace.  [__get_ds_uri] returns
    exactly when the reference holds a colon, and raises ValueError
    otherwise. *)
Theorem resolvers_preconditions short_uri :
  ((∃ uri, get_aml_uri environ short_uri = Ok uri) ↔
   PyStr.contains ":" short_uri = true
   ∧ is_Some (environ !! "SUBSCRIPTION_ID")
   ∧ is_Some (environ !! "RESOURCE_GROUP")
   ∧ is_Some (environ !! "WORKSPACE_NAME")) ∧
  (PyStr.contains ":" short_uri = false →
   get_aml_uri environ short_uri = Raise IndexError) ∧
  (PyStr.contains ":" short_uri = true →
   environ !! "SUBSCRIPTION_ID" = None →
   get_aml_uri environ short_uri = Raise (KeyError "SUBSCRIPTION_ID")) ∧
  (PyStr.contains ":" short_uri = true →
   is_Some (environ !! "SUBSCRIPTION_ID") →
   environ !! "RESOURCE_GROUP" = None →
   get_aml_uri environ short_uri = Raise (KeyError "RESOURCE_GROUP")) ∧
  (PyStr.contains ":" short_uri = true →
   is_Some (environ !! "SUBSCRIPTION_ID") →
   is_Some (environ !! "RESOURCE_GROUP") →
   environ !! "WORKSPACE_NAME" = None →
   get_aml_uri environ short_uri = Raise (KeyError "WORKSPACE_NAME")) ∧
  ((∃ uri, __get_ds_uri self short_uri = Ok uri) ↔
   PyStr.contains ":" short_uri = true) ∧
  (PyStr.contains ":" short_uri = false →
   __get_ds_uri self short_uri = Raise (ValueError "substring not found")).
Proof.
  assert (PyStr.contains ":" short_uri = true →
          ∃ ds pth,
            get_aml_uri environ short_uri
            = (subs ← environ_get environ "SUBSCRIPTION_ID";
               rg ← environ_get environ "RESOURCE_GROUP";
               ws ← environ_get environ "WORKSPACE_NAME";
               Ok (uri_template subs rg ws ds pth))) as Hcolon.
  { intros (a & rest & -> & Ha)%contains_cut. unfold get_aml_uri.
    rewrite split_app by done.
    pose proof (split_nonempty ":" rest).
    destruct (PyStr.split ":" rest) as [|w ws]; [done|]. by eexists _, _. }
  split_and!.
  - split.
    + intros [uri Huri].
      destruct (PyStr.contains ":" short_uri) eqn:Hc;
        [|by rewrite get_aml_uri_no_colon in Huri].
      destruct (Hcolon eq_refl) as (ds & pth & Heq). rewrite Heq in Huri.
      unfold environ_get in Huri.
      destruct (environ !! "SUBSCRIPTION_ID"); [|done].
      destruct (environ !! "RESOURCE_GROUP"); [|done].
      destruct (environ !! "WORKSPACE_NAME"); [|done]. done.
    + intros (Hc & [subs Hs] & [rg Hr] & [ws Hw]).
      destruct (Hcolon Hc) as (ds & pth & ->). unfold environ_get.
      rewrite Hs, Hr, Hw. by eexists.
  - apply get_aml_uri_no_colon.
  - intros Hc Hs. destruct (Hcolon Hc) as (ds & pth & ->).
    unfold environ_get. by rewrite Hs.
  - intros Hc [subs Hs] Hr. destruct (Hcolon Hc) as (ds & pth & ->).
    unfold environ_get. by rewrite Hs, Hr.
  - intros Hc [subs Hs] [rg Hr] Hw. destruct (Hcolon Hc) as (ds & pth & ->).
    unfold environ_get. by rewrite Hs, Hr, Hw.
  - split; [|apply __get_ds_uri_ok].
    intros [uri Huri]. destruct (PyStr.contains ":" short_uri) eqn:Hc; [done|].
    by rewrite __get_ds_uri_no_colon in Huri.
  - apply __get_ds_uri_no_colon.
Qed.

(** X22: white space around the store name and around the path makes no
    difference to [get_aml_uri]. *)
Theorem get_aml_uri_ignores_whitespace store p :
  PyStr.contains ":" store = false → PyStr.contains ":" p = false →
  get_aml_uri environ (store +:+ ":" +:+ p)
  = get_aml_uri environ (PyStr.strip store +:+ ":" +:+ PyStr.strip p).
Proof.
  intros Hstore Hp. unfold get_aml_uri.
  change (store +:+ ":" +:+ p) with (store +:+ String ":" p).
  change (PyStr.strip store +:+ ":" +:+ PyStr.strip p)
    with (PyStr.strip store +:+ String ":" (PyStr.strip p)).
  rewrite !split_app by (done || by apply contains_strip).
  rewrite !split_no_sep by (done || by apply contains_strip).
  simpl. by rewrite !strip_idem.
Qed.

End ResolverFacts.

(** ** Data schemas, in general *)

Section SchemaFacts.

Import DataSchema.

Variable exists_on_disk : string → bool.

(** X18: what [__value2uri] makes of a value, which is the path handed to
    [Input] and [Output]; it never raises.  A value that is no string gives
    [None]: a number or a boolean is no path.  A string with a qualified
    prefix is returned as it stands.  Any other string with a colon is
    resolved as a short reference, whether or not it is a path on disk, and
    the resolution returns; only a string without a colon is looked up on
    disk, and is returned if it exists there and replaced by [None] if
    not. *)
Theorem value2uri_cases self v :
  (isinstance_str v = false →
   __value2uri exists_on_disk self v = Ok PNone) ∧
  (∀ s, v = PStr s → has_uri_prefix s = true →
        __value2uri exists_on_disk self v = Ok (PStr s)) ∧
  (∀ s, v = PStr s → has_uri_prefix s = false →
        PyStr.contains ":" s = true →
        ∃ uri, __get_ds_uri self s = Ok uri
               ∧ __value2uri exists_on_disk self v = Ok (PStr uri)) ∧
  (∀ s, v = PStr s → has_uri_prefix s = false →
        PyStr.contains ":" s = false →
        __value2uri exists_on_disk self v
        = Ok (if exists_on_disk s then PStr s else PNone)).
Proof.
  unfold __value2uri. split_and!.
  - intros Hv. rewrite Hv. simpl. by destruct v.
  - intros s -> Hs. cbn [isinstance_str as_str andb]. by rewrite Hs.
  - intros s -> Hs Hc. cbn [isinstance_str as_str andb]. rewrite Hs, Hc.
    destruct (__get_ds_uri_ok self s Hc) as [uri ->]. by exists uri.
  - intros s -> Hs Hc. cbn [isinstance_str as_str andb is_local_path].
    rewrite Hs, Hc. by destruct (exists_on_disk s).
Qed.

Lemma init_fields get_ml_client declared value0 descr ml_client self :
  __init__ get_ml_client declared value0 descr ml_client = Ok self →
  data_type self = declared
  ∧ default_value self = value0
  ∧ description self = descr
  ∧ no_data_type self = false.
Proof.
  unfold __init__, __validate.
  destruct (match ml_client with Some c => Ok c | None => get_ml_client end)
    as [c|]; [|done]. simpl.
  destruct (in_INPUTS declared) eqn:Hin; [|done]. simpl.
  intros [= <-]. split_and!; try done.
  unfold no_data_type. simpl. destruct declared as [ty|]; [|done].
  simpl in Hin. apply bool_decide_eq_true in Hin.
  unfold INPUTS in Hin. rewrite !elem_of_cons, elem_of_nil in Hin.
  destruct_or!; by subst.
Qed.

(** X16: on a schema that the constructor has returned, [as_input]
    builds an [Input] of the declared type, the passed mode, the
    description of the schema and the passed keyword arguments, and
    [as_output] an [Output] of the same; the path is [None] or a string;
    the schema itself is left as it was. *)
Theorem constructed_schema_builds get_ml_client declared value0 descr
    ml_client self value mode kwargs r :
  __init__ get_ml_client declared value0 descr ml_client = Ok self →
  (as_input exists_on_disk self value mode kwargs = Ok r →
   r.2 = self ∧ ∃ p,
     r.1 = Input {| path := p; type := declared; DataSchema.mode := mode;
                    io_description := descr; kwargs := kwargs |}
     ∧ (p = PNone ∨ ∃ s, p = PStr s)) ∧
  (as_output exists_on_disk self value mode kwargs = Ok r →
   r.2 = self ∧ ∃ p,
     r.1 = Output {| path := p; type := declared; DataSchema.mode := mode;
                     io_description := descr; kwargs := kwargs |}
     ∧ (p = PNone ∨ ∃ s, p = PStr s)).
Proof.
  intros (Hty & Hdv & Hdesc & Hno)%init_fields.
  assert (∀ v p, __value2uri exists_on_disk self v = Ok p →
                 p = PNone ∨ ∃ s, p = PStr s) as Hp.
  { intros v p. unfold __value2uri.
    destruct v as [|b|z|f|s]; cbn [isinstance_str as_str andb is_local_path];
      try (intros [= <-]; by left).
    destruct (has_uri_prefix s); [intros [= <-]; right; by eexists|].
    destruct (PyStr.contains ":" s).
    - destruct (__get_ds_uri self s); [|done]. intros [= <-]. right.
      by eexists.
    - destruct (exists_on_disk s); intros [= <-]; [right; by eexists|by left]. }
  unfold as_input, as_output, __to_aml. rewrite Hno.
  destruct (is_None (default_value self) && is_None value) eqn:Hvalue;
    [done|].
  rewrite andb_comm, Hvalue.
  destruct (__value2uri exists_on_disk self (py_or value (default_value self)))
    as [p|] eqn:Huri.
  - specialize (Hp _ _ Huri). split.
    + destruct (decide (mode ∉ IO_MODES_INPUT)) as [|Hmode]; [done|].
      simpl. intros [= <-]. split; [done|]. exists p. split; [|done].
      simpl. rewrite Hty, Hdesc.
      destruct mode; [|done]. exfalso. apply Hmode. unfold IO_MODES_INPUT.
      rewrite !not_elem_of_cons. split_and!; try done. apply not_elem_of_nil.
    + destruct (decide (mode ∉ IO_MODES_OUTPUT)) as [|Hmode]; [done|].
      simpl. intros [= <-]. split; [done|]. exists p. split; [|done].
      simpl. rewrite Hty, Hdesc.
      destruct mode; [|done]. exfalso. apply Hmode. unfold IO_MODES_OUTPUT.
      rewrite !not_elem_of_cons. split_and!; try done. apply not_elem_of_nil.
  - split; by case_decide.
Qed.

End SchemaFacts.

(** ** Instances of the general statements *)

Lemma constructed_schema_builds_witness :
  ∃ r,
    DataSchema.as_input DataSchemaExample.empty_disk DataSchemaExample.laptops
      PNone "download" [] = Ok r
    ∧ r.2 = DataSchemaExample.laptops
    ∧ ∃ p,
        r.1 = DataSchema.Input
                {| DataSchema.path := p;
                   DataSchema.type := Some "uri_file";
                   DataSchema.mode := "download";
                   DataSchema.io_description := None;
                   DataSchema.kwargs := [] |}
        ∧ (p = PNone ∨ ∃ s, p = PStr s).
Proof.
  eexists. split; [reflexivity|].
  apply (proj1 (constructed_schema_builds DataSchemaExample.empty_disk
                  (Raise TypeError) (Some "uri_file")
                  (PStr "teststorage:test_datasets/laptop_price.csv") None
                  (Some DataSchemaExample.client) DataSchemaExample.laptops
                  PNone "download" [] _ eq_refl)).
  reflexivity.
Defined.

Lemma value2uri_cases_witness :
  DataSchema.__value2uri DataSchemaExample.empty_disk
    DataSchemaExample.laptops (PInt 7) = Ok PNone
  ∧ ∃ uri,
      DataSchema.__get_ds_uri DataSchemaExample.laptops "store:/a.csv" = Ok uri
      ∧ DataSchema.__value2uri DataSchemaExample.empty_disk
          DataSchemaExample.laptops (PStr "store:/a.csv") = Ok (PStr uri).
Proof.
  split.
  - apply (value2uri_cases DataSchemaExample.empty_disk
             DataSchemaExample.laptops (PInt 7)). reflexivity.
  - apply (proj1 (proj2 (proj2
             (value2uri_cases DataSchemaExample.empty_disk
                DataSchemaExample.laptops (PStr "store:/a.csv"))))
             "store:/a.csv"); reflexivity.
Defined.

Lemma leading_slash_dropped_once_witness :
  DataSchema.__get_ds_uri DataSchemaExample.laptops "teststorage:/data/a.csv"
  = DataSchema.__get_ds_uri DataSchemaExample.laptops "teststorage:data/a.csv"
  ∧ get_aml_uri DataSchemaExample.environ "teststorage:/data/a.csv"
    = get_aml_uri DataSchemaExample.environ "teststorage:data/a.csv".
Proof.
  destruct (leading_slash_dropped_once DataSchemaExample.environ
              DataSchemaExample.laptops "teststorage" "data/a.csv"
              eq_refl eq_refl eq_refl eq_refl eq_refl)
    as [(H1 & H2 & _) (H3 & H4 & _)].
  - split_and!; reflexivity.
  - split.
    + exact (eq_trans H2 (eq_sym H1)).
    + exact (eq_trans H4 (eq_sym H3)).
Defined.

Lemma second_colon_truncates_witness :
  DataSchema.__get_ds_uri DataSchemaExample.laptops "store:data/a.csv:v2"
  = DataSchema.__get_ds_uri DataSchemaExample.laptops "store:data/a.csv".
Proof.
  apply (proj1 (second_colon_truncates DataSchemaExample.environ
                  DataSchemaExample.laptops "store" "data/a.csv" "v2"
                  eq_refl eq_refl)).
Defined.

Lemma resolvers_preconditions_witness :
  get_aml_uri ∅ "no colon here" = Raise IndexError
  ∧ get_aml_uri {["SUBSCRIPTION_ID" := "0000-1111"]} "store:data"
    = Raise (KeyError "RESOURCE_GROUP").
Proof.
  split.
  - apply (resolvers_preconditions ∅ DataSchemaExample.laptops "no colon here").
    reflexivity.
  - apply (resolvers_preconditions {["SUBSCRIPTION_ID" := "0000-1111"]}
             DataSchemaExample.laptops "store:data");
      [reflexivity|by eexists|reflexivity].
Defined.

Lemma get_aml_uri_ignores_whitespace_witness :
  get_aml_uri DataSchemaExample.environ " teststorage : data/a.csv "
  = get_aml_uri DataSchemaExample.environ "teststorage:data/a.csv".
Proof.
  apply (get_aml_uri_ignores_whitespace DataSchemaExample.environ
           " teststorage " " data/a.csv "); reflexivity.
Defined.
